(** * Forward_Logs.py: incremental forwarding of SQL table rows to syslog

    A shallow embedding of [Forward_Logs.py] and the proofs of its
    state-tracking and forwarding properties.

    - Text is [string], one [ascii] per code point, so the development
      covers text whose code points are below 256.
    - The files the program touches are modelled by their text: the state
      file [SQL.state] is part of the mutable world, [Tables.txt] and the
      decoded [Login.json] are part of the environment of a run.
    - The database, the terminal and the network are the environment: it
      says what each call answers or whether it raises.  Calls that the
      environment takes to succeed are [getpass], [socket.gethostname] and
      [socket.gethostbyname], and the lookups of the keys ['server_ip'] and
      ['user'] in the objects of [Login.json].
    - [logging.handlers.SysLogHandler] is the one of the standard library:
      its constructor has no parameter [ssl], so the call the program makes
      raises [TypeError].
    - Python exceptions are an explicit outcome; state is passed through a
      small state-and-exception monad. *)

From Stdlib Require Import String Ascii List ZArith Lia Bool.
From Stdlib Require Import DecimalString DecimalZ.
Import ListNotations.

Local Open Scope list_scope.
Local Open Scope string_scope.

(** ** Python text primitives *)

Module Py.

Definition LF : ascii := "010"%char.
Definition CR : ascii := "013"%char.
Definition colon : ascii := ":"%char.

(** The line terminator written by [f.write("...\n")]. *)
Definition nl : string := String LF EmptyString.

(** [str.isspace] on one code point below 256: TAB..CR, FS..US, SPACE,
    NEL and NBSP. *)
Definition isspace (c : ascii) : bool :=
  let n := nat_of_ascii c in
  ((9 <=? n) && (n <=? 13) || (28 <=? n) && (n <=? 32)
   || (n =? 133) || (n =? 160))%nat.

Fixpoint lstrip_with (p : ascii -> bool) (s : string) : string :=
  match s with
  | EmptyString => EmptyString
  | String c r => if p c then lstrip_with p r else s
  end.

Fixpoint rstrip_with (p : ascii -> bool) (s : string) : string :=
  match s with
  | EmptyString => EmptyString
  | String c r =>
      match rstrip_with p r with
      | EmptyString => if p c then EmptyString else String c EmptyString
      | r' => String c r'
      end
  end.

(** [s.strip()] *)
Definition strip (s : string) : string :=
  rstrip_with isspace (lstrip_with isspace s).

(** [s.split(sep)] for a one-character separator: never the empty list. *)
Fixpoint split (sep : ascii) (s : string) : list string :=
  match s with
  | EmptyString => [EmptyString]
  | String c r =>
      if Ascii.eqb c sep then EmptyString :: split sep r
      else match split sep r with
           | h :: t => String c h :: t
           | [] => [String c EmptyString]
           end
  end.

(** [sep.join(parts)] *)
Definition join (sep : string) (parts : list string) : string :=
  String.concat sep parts.

(** [for line in f] on a file opened in text mode: the lines of the text,
    each with its terminator; LF, CR and CR LF all end a line and are read
    as LF (universal newlines). *)
Fixpoint file_lines (s : string) : list string :=
  match s with
  | EmptyString => []
  | String c r =>
      if Ascii.eqb c LF then nl :: file_lines r
      else if Ascii.eqb c CR then
        match r with
        | String c' r' =>
            if Ascii.eqb c' LF then nl :: file_lines r'
            else nl :: file_lines r
        | EmptyString => [nl]
        end
      else match file_lines r with
           | l :: ls => String c l :: ls
           | [] => [String c EmptyString]
           end
  end.

(** [str(n)] for an [int]. *)
Definition str (n : Z) : string := NilZero.string_of_int (Z.to_int n).

Definition isdigit (c : ascii) : bool :=
  let n := nat_of_ascii c in ((48 <=? n) && (n <=? 57))%nat.

(** The blanks [int()] skips around a literal: TAB..CR and SPACE, and the
    spaces above 127 (NEL, NBSP), which it first rewrites to SPACE.  FS..US
    are blanks for [strip] but not for [int]. *)
Definition int_space (c : ascii) : bool :=
  let n := nat_of_ascii c in
  ((9 <=? n) && (n <=? 13) || (n =? 32) || (n =? 133) || (n =? 160))%nat.

(** The digits of a literal body, underscores removed: a digit, then
    digits each preceded by at most one underscore.  [None] when the body
    is not of that shape. *)
Fixpoint digits_of (after_digit : bool) (s : string) : option string :=
  match s with
  | EmptyString => if after_digit then Some EmptyString else None
  | String c r =>
      if isdigit c then option_map (String c) (digits_of true r)
      else if Ascii.eqb c "_"%char then
        if after_digit then digits_of false r else None
      else None
  end.

Definition nat_literal (s : string) : option Z :=
  match digits_of false s with
  | Some ds => option_map Z.of_uint (NilEmpty.uint_of_string ds)
  | None => None
  end.

(** [int(s)]: [None] stands for [ValueError].  (The interpreter's limit on
    the number of digits of a literal is not modelled.) *)
Definition int (s : string) : option Z :=
  match rstrip_with int_space (lstrip_with int_space s) with
  | EmptyString => None
  | String c body =>
      if Ascii.eqb c "-"%char then option_map Z.opp (nat_literal body)
      else if Ascii.eqb c "+"%char then nat_literal body
      else nat_literal (String c body)
  end.

(** [data[start:]] on a list: a negative [start] counts from the end. *)
Definition slice_from {A : Type} (start : Z) (data : list A) : list A :=
  if (start <? 0)%Z
  then skipn (Z.to_nat (Z.max 0 (Z.of_nat (length data) + start))) data
  else skipn (Z.to_nat start) data.

(** A [dict] with [str] keys: the items in insertion order, keys unique. *)
Definition dict (V : Type) : Type := list (string * V).

(** [d.get(k)] *)
Fixpoint dict_get {V : Type} (d : dict V) (k : string) : option V :=
  match d with
  | [] => None
  | (k', v) :: rest => if String.eqb k k' then Some v else dict_get rest k
  end.

(** [d.get(k, default)] *)
Definition dict_get_default {V : Type} (d : dict V) (k : string) (default : V) : V :=
  match dict_get d k with
  | Some v => v
  | None => default
  end.

(** [d[k] = v]: an existing key keeps its place, a new key goes last. *)
Fixpoint dict_set {V : Type} (d : dict V) (k : string) (v : V) : dict V :=
  match d with
  | [] => [(k, v)]
  | (k', v') :: rest =>
      if String.eqb k k' then (k', v) :: rest
      else (k', v') :: dict_set rest k v
  end.

End Py.

(** ** Data model *)

Import Py.

(** A column value of a fetched row, with its [str()] rendering. *)
Inductive value : Type :=
| VNone
| VBool (b : bool)
| VInt (n : Z)
| VStr (s : string)
| VOther (rendering : string).

Definition str_value (v : value) : string :=
  match v with
  | VNone => "None"
  | VBool true => "True"
  | VBool false => "False"
  | VInt n => str n
  | VStr s => s
  | VOther s => s
  end.

Definition row : Type := list value.

(** One object of [Login.json], with the keys the program reads. *)
Record server_config : Type := mk_server_config {
  srv_server_ip : string;
  srv_user : string
}.

(** The dict [load_table_configs] builds for one line of [Tables.txt]. *)
Record table_config : Type := mk_table_config {
  server_ip : string;
  user : string;
  database : string;
  table : string
}.

Inductive exn : Type :=
| OSError        (* a configuration file cannot be opened *)
| ValueError
| TypeError
| PyodbcError (msg : string).

Inductive outcome (A : Type) : Type :=
| Ok (a : A)
| Raise (e : exn).
Arguments Ok {A} a.
Arguments Raise {A} e.

(** How the database answers one job: the step of [fetch_data_from_db] at
    which [pyodbc.Error] is raised, or the rows of the table. *)
Inductive db_reply : Type :=
| ConnectError (msg : string)
| CursorError (msg : string)
| ExecuteError (msg : string)
| FetchallError (msg : string)
| Rows (rows : list row).

(** What [sock.connect_ex] does in [ping_syslog_server]. *)
Inductive probe_reply : Type :=
| ConnectEx (errno : Z)
| ProbeRaises (msg : string).

Inductive db_event : Type :=
| Connected (connection_string : string)
| Executed (sql : string)
| Fetched
| Closed.

(** The environment of one run: the configuration files and the peers. *)
Record Env : Type := mk_env {
  login_json : option (list server_config);  (* [json.load] of Login.json *)
  tables_txt : option string;                (* text of Tables.txt *)
  getpass : table_config -> string;
  sql_server : table_config -> db_reply;
  syslog_probe : probe_reply;
  (* whether [socket.sendto] takes the datagram of a record; a failure (a
     record longer than a datagram holds) is swallowed by
     [SysLogHandler.emit] *)
  sendto_ok : string -> bool;
  hostname : string;
  ip_address : string
}.

(** The mutable world: the state file [SQL.state] ([None] when it does not
    exist), the number of handlers attached to the logger ['SyslogLogger'],
    the messages sent to the syslog endpoint, the lines printed, and the
    database calls, all oldest first. *)
Record World : Type := mk_world {
  state_file : option string;
  logger_handlers : nat;
  syslog : list string;
  console : list string;
  db_log : list db_event
}.

Definition set_state_file (f : option string) (w : World) : World :=
  mk_world f (logger_handlers w) (syslog w) (console w) (db_log w).
Definition set_syslog (l : list string) (w : World) : World :=
  mk_world (state_file w) (logger_handlers w) l (console w) (db_log w).
Definition set_console (l : list string) (w : World) : World :=
  mk_world (state_file w) (logger_handlers w) (syslog w) l (db_log w).
Definition set_db_log (l : list db_event) (w : World) : World :=
  mk_world (state_file w) (logger_handlers w) (syslog w) (console w) l.

(** ** Effects: state passing with exceptions *)

Definition M (A : Type) : Type := World -> outcome A * World.

Definition ret {A : Type} (a : A) : M A := fun w => (Ok a, w).

Definition raise {A : Type} (e : exn) : M A := fun w => (Raise e, w).

Definition bind {A B : Type} (m : M A) (k : A -> M B) : M B :=
  fun w =>
    match m w with
    | (Ok a, w') => k a w'
    | (Raise e, w') => (Raise e, w')
    end.

Declare Scope py_scope.
Delimit Scope py_scope with py.
Notation "x <- m ;; k" := (bind m (fun x => k))
  (at level 100, m at next level, right associativity) : py_scope.
Notation "m ;; k" := (bind m (fun _ => k))
  (at level 100, right associativity) : py_scope.
Local Open Scope py_scope.

(** [for x in l: body(x)] *)
Fixpoint for_each {A : Type} (l : list A) (body : A -> M unit) : M unit :=
  match l with
  | [] => ret tt
  | x :: rest => body x ;; for_each rest body
  end.

(** [try: m  except pyodbc.Error as e: handler(e)] *)
Definition except_pyodbc {A : Type} (m : M A) (handler : string -> M A) : M A :=
  fun w =>
    match m w with
    | (Raise (PyodbcError msg), w') => handler msg w'
    | r => r
    end.

Definition print (line : string) : M unit :=
  fun w => (Ok tt, set_console (console w ++ [line])%list w).

(** [open(STATE_FILE, "w")] followed by the writes: the file holds exactly
    the text written. *)
Definition write_state_file (text : string) : M unit :=
  fun w => (Ok tt, set_state_file (Some text) w).

(** [logger.info(message)]: every handler attached to the logger hands the
    record to [socket.sendto] (the timestamp the formatter puts in front
    and the syslog framing are left out); a datagram the socket refuses is
    dropped inside [SysLogHandler.emit] and the call returns all the same. *)
Definition logger_info (env : Env) (message : string) : M unit :=
  fun w =>
    (Ok tt,
     if sendto_ok env message
     then set_syslog (syslog w ++ repeat message (logger_handlers w))%list w
     else w).

(** [SysLogHandler(address=(SYSLOG_SVR_IP, SYSLOG_SVR_PORT), ssl=False)]
    followed by [logger.addHandler]: the constructor of
    [logging.handlers.SysLogHandler] takes [address], [facility] and
    [socktype] and no keyword [ssl], so the call raises [TypeError] and no
    handler is ever attached. *)
Definition add_syslog_handler : M unit := raise TypeError.

Definition db_do (e : db_event) : M unit :=
  fun w => (Ok tt, set_db_log (db_log w ++ [e])%list w).

(** colorama's escape sequences *)
Definition ESC : ascii := "027"%char.
Definition Fore_RED : string := String ESC "[31m".
Definition Fore_GREEN : string := String ESC "[32m".
Definition Style_RESET_ALL : string := String ESC "[0m".

(** ** The program *)

(** [load_server_configs] *)
Definition load_server_configs (env : Env) : M (list server_config) :=
  match login_json env with
  | Some configs => ret configs
  | None => raise OSError
  end.

(** [{config['server_ip']: config for config in server_configs}] *)
Definition server_dict_of (server_configs : list server_config) : dict server_config :=
  fold_left (fun d config => dict_set d (srv_server_ip config) config)
            server_configs [].

(** The loop of [load_table_configs] over the lines of [Tables.txt];
    unpacking a line that has not three fields raises [ValueError]. *)
Fixpoint load_table_lines (server_dict : dict server_config) (lines : list string)
    (table_configs : list table_config) : M (list table_config) :=
  match lines with
  | [] => ret table_configs
  | line :: rest =>
      match split colon (strip line) with
      | [server_ip; db_name; table_name] =>
          match dict_get server_dict server_ip with
          | Some config =>
              load_table_lines server_dict rest
                (table_configs ++
                 [mk_table_config (srv_server_ip config) (srv_user config)
                                  db_name table_name])%list
          | None =>
              print (Fore_RED ++ "Cannot find '" ++ server_ip
                     ++ "' in the server configurations." ++ Style_RESET_ALL) ;;
              load_table_lines server_dict rest table_configs
          end
      | _ => raise ValueError
      end
  end.

(** [load_table_configs] *)
Definition load_table_configs (env : Env) : M (list table_config) :=
  server_configs <- load_server_configs env ;;
  let server_dict := server_dict_of server_configs in
  match tables_txt env with
  | Some text => load_table_lines server_dict (file_lines text) []
  | None => raise OSError
  end.

(** The text [create_state_file] writes: one line [table:0] per job. *)
Definition initial_state_text (table_configs : list table_config) : string :=
  fold_left (fun text config => text ++ table config ++ ":0" ++ nl)
            table_configs "".

(** [create_state_file] *)
Definition create_state_file (table_configs : list table_config) : M unit :=
  fun w =>
    match state_file w with
    | None =>
        (write_state_file (initial_state_text table_configs) ;;
         print "State file created!") w
    | Some _ => ret tt w
    end.

(** The loop of [read_state] over the lines of the state file. *)
Fixpoint read_state_lines (lines : list string) (state : dict Z) : outcome (dict Z) :=
  match lines with
  | [] => Ok state
  | line :: rest =>
      match split colon (strip line) with
      | [table_name; last_rows_read] =>
          match int last_rows_read with
          | Some n => read_state_lines rest (dict_set state table_name n)
          | None => Raise ValueError
          end
      | _ => read_state_lines rest state
      end
  end.

Definition read_state_of (file : option string) : outcome (dict Z) :=
  match file with
  | Some text => read_state_lines (file_lines text) []
  | None => Ok []
  end.

(** [read_state] *)
Definition read_state : M (dict Z) :=
  fun w => (read_state_of (state_file w), w).

(** The text [update_state] writes: one line [table:rows] per item. *)
Definition state_text (state : dict Z) : string :=
  fold_left (fun text item => text ++ fst item ++ ":" ++ str (snd item) ++ nl)
            state "".

(** [update_state] *)
Definition update_state (table_name : string) (last_rows_read : Z) : M unit :=
  state <- read_state ;;
  let state := dict_set state table_name last_rows_read in
  write_state_file (state_text state).

Definition connection_string (config : table_config) (password : string) : string :=
  "DRIVER={ODBC Driver 18 for SQL Server};"
  ++ "SERVER=" ++ server_ip config ++ ";"
  ++ "DATABASE=" ++ database config ++ ";"
  ++ "UID=" ++ user config ++ ";"
  ++ "PWD=" ++ password ++ ";"
  ++ "TrustServerCertificate=yes".

(** The database calls of [fetch_data_from_db]; each raises [pyodbc.Error]
    when the environment says so. *)
Definition pyodbc_connect (env : Env) (config : table_config) (conn_str : string) : M unit :=
  match sql_server env config with
  | ConnectError msg => raise (PyodbcError msg)
  | _ => db_do (Connected conn_str)
  end.

Definition connection_cursor (env : Env) (config : table_config) : M unit :=
  match sql_server env config with
  | CursorError msg => raise (PyodbcError msg)
  | _ => ret tt
  end.

Definition cursor_execute (env : Env) (config : table_config) (sql : string) : M unit :=
  match sql_server env config with
  | ExecuteError msg => raise (PyodbcError msg)
  | _ => db_do (Executed sql)
  end.

Definition cursor_fetchall (env : Env) (config : table_config) : M (list row) :=
  match sql_server env config with
  | Rows rows => db_do Fetched ;; ret rows
  | ConnectError msg | CursorError msg | ExecuteError msg | FetchallError msg =>
      raise (PyodbcError msg)
  end.

Definition connection_close : M unit := db_do Closed.

(** The body of the [try] of [fetch_data_from_db]. *)
Definition fetch_body (env : Env) (config : table_config) : M (list row) :=
  state <- read_state ;;
  let last_processed_id := dict_get_default state (table config) 0%Z in
  let password := getpass env config in
  pyodbc_connect env config (connection_string config password) ;;
  connection_cursor env config ;;
  cursor_execute env config ("SELECT * FROM " ++ table config) ;;
  rows <- cursor_fetchall env config ;;
  connection_close ;;
  ret rows.

(** [fetch_data_from_db] *)
Definition fetch_data_from_db (env : Env) (config : table_config) : M (list row) :=
  except_pyodbc (fetch_body env config)
    (fun e => print ("Error fetching data: " ++ e) ;; ret []).

(** [ping_syslog_server] *)
Definition ping_syslog_server (env : Env) : M bool :=
  match syslog_probe env with
  | ConnectEx result => ret (result =? 0)%Z
  | ProbeRaises e => print ("Error pinging syslog server: " ++ e) ;; ret false
  end.

Definition message_prefix (env : Env) (config : table_config) : string :=
  hostname env ++ " (" ++ ip_address env ++ ") [" ++ server_ip config ++ "] | "
  ++ database config ++ " | " ++ table config ++ " | ".

(** The summary record. *)
Definition summary_message (env : Env) (config : table_config) (row_count : Z) : string :=
  message_prefix env config ++ "Rows Read: " ++ str row_count.

(** The detail record of one row. *)
Definition row_message (env : Env) (config : table_config) (r : row) : string :=
  message_prefix env config ++ join " | " (map str_value r).

(** [send_to_syslog] *)
Definition send_to_syslog (env : Env) (data : list row) (config : table_config) : M unit :=
  add_syslog_handler ;;
  state <- read_state ;;
  let last_rows_read := dict_get_default state (table config) 0%Z in
  if (Z.of_nat (length data) >? last_rows_read)%Z then
    let new_data := slice_from last_rows_read data in
    let row_count := Z.of_nat (length new_data) in
    let message := summary_message env config row_count in
    logger_info env message ;;
    print (Fore_GREEN ++ message ++ Style_RESET_ALL) ;;
    for_each new_data (fun r =>
      let row_message := row_message env config r in
      logger_info env row_message ;;
      print (Fore_GREEN ++ row_message ++ Style_RESET_ALL)) ;;
    update_state (table config) (last_rows_read + row_count)%Z ;;
    print (Fore_GREEN ++ str row_count ++ " new rows logged for " ++ table config
           ++ " from " ++ server_ip config ++ "." ++ Style_RESET_ALL)
  else
    print ("No new rows to log for " ++ table config ++ " from "
           ++ server_ip config ++ ".").

(** The body of the loop of [main]: [if data:] holds for a non-empty list. *)
Definition process_job (env : Env) (config : table_config) : M unit :=
  data <- fetch_data_from_db env config ;;
  match data with
  | [] => ret tt
  | _ :: _ => send_to_syslog env data config
  end.

(** [main] *)
Definition main (env : Env) : M unit :=
  server_configs <- load_server_configs env ;;
  table_configs <- load_table_configs env ;;
  create_state_file table_configs ;;
  reachable <- ping_syslog_server env ;;
  if negb reachable then
    print (Fore_RED ++ "Cannot contact the Syslog server. Ensure the Syslog server is on."
           ++ Style_RESET_ALL)
  else
    for_each table_configs (process_job env).


(** ** Shapes of text *)

Fixpoint all_chars (p : ascii -> bool) (s : string) : bool :=
  match s with
  | EmptyString => true
  | String c r => p c && all_chars p r
  end.

Definition is_newline (c : ascii) : bool := Ascii.eqb c LF || Ascii.eqb c CR.

(** No line break inside the text. *)
Definition no_newline (s : string) : bool :=
  all_chars (fun c => negb (is_newline c)) s.

Definition no_colon (s : string) : bool :=
  all_chars (fun c => negb (Ascii.eqb c colon)) s.

Definition starts_with_space (s : string) : bool :=
  match s with
  | EmptyString => false
  | String c _ => isspace c
  end.

(** A field of a colon-separated line, the way [split(':')] of one line of a
    file yields it: neither colon nor line break. *)
Definition field_ok (s : string) : bool := no_colon s && no_newline s.

(** A table name that the state file gives back as it was written: a field
    that does not begin with a blank. *)
Definition key_ok (s : string) : bool := field_ok s && negb (starts_with_space s).

(** The keys of a dict, in order. *)
Definition keys {V : Type} (d : dict V) : list string := map fst d.

(** The line of the state file for one item. *)
Definition state_line (item : string * Z) : string :=
  fst item ++ ":" ++ str (snd item) ++ nl.

(** The dict [read_state] builds, starting from [state], out of the lines
    written for the items of [d]: the blanks in front of a key are lost. *)
Definition reread (d : dict Z) (state : dict Z) : dict Z :=
  fold_left (fun s item => dict_set s (lstrip_with isspace (fst item)) (snd item))
            d state.

(** The offset [send_to_syslog] and [fetch_data_from_db] read for a table. *)
Definition stored_offset (w : World) (table_name : string) : outcome Z :=
  match read_state_of (state_file w) with
  | Ok state => Ok (dict_get_default state table_name 0%Z)
  | Raise e => Raise e
  end.

(** [w'] differs from [w] at most by lines printed on the console. *)
Definition quiet (w w' : World) : Prop :=
  state_file w' = state_file w
  /\ logger_handlers w' = logger_handlers w
  /\ syslog w' = syslog w
  /\ db_log w' = db_log w.

(** The jobs one line of [Tables.txt] resolves to: one, or none when its
    [server_ip] is not configured. *)
Definition jobs_of_line (server_dict : dict server_config) (line : string) : list table_config :=
  match split colon (strip line) with
  | [server_ip; db_name; table_name] =>
      match dict_get server_dict server_ip with
      | Some config =>
          [mk_table_config (srv_server_ip config) (srv_user config) db_name table_name]
      | None => []
      end
  | _ => []
  end.

(** A line of [Tables.txt] whose server is not configured. *)
Definition unresolved (server_dict : dict server_config) (line : string) : Prop :=
  exists server_ip db_name table_name,
    split colon (strip line) = [server_ip; db_name; table_name]
    /\ dict_get server_dict server_ip = None.

(** ** Sample configurations and runs *)

Module Sample.

Definition customers : table_config :=
  mk_table_config "10.0.0.1" "svc" "SalesDB" "Customers".

Definition orders : table_config :=
  mk_table_config "10.0.0.1" "svc" "SalesDB" "Orders".

Definition one_job : string := "10.0.0.1:SalesDB:Orders" ++ nl.

Definition two_jobs : string :=
  "10.0.0.1:SalesDB:Customers" ++ nl ++ "10.0.0.1:SalesDB:Orders" ++ nl.

Definition alias_jobs : string :=
  "10.0.0.1:SalesDB:Orders" ++ nl ++ "10.0.0.2:SalesDB: Orders" ++ nl.

(** A binding file whose second line names a server that is not configured. *)
Definition three_lines : string :=
  "10.0.0.1:SalesDB:Customers" ++ nl ++ "10.0.0.9:HR:Staff" ++ nl
  ++ "10.0.0.1:SalesDB:Orders" ++ nl.

(** [n] rows of one column, numbered from 1. *)
Definition rows_of (n : nat) : list row :=
  map (fun i => [VInt (Z.of_nat i)]) (seq 1 n).

Definition env (tables : string) (reply : table_config -> db_reply)
    (probe : probe_reply) : Env :=
  mk_env (Some [mk_server_config "10.0.0.1" "svc"; mk_server_config "10.0.0.2" "svc"])
         (Some tables) (fun _ => "secret") reply probe (fun _ => true)
         "host" "192.0.2.7".

(** A process that has not logged yet, with the given state file. *)
Definition world (file : option string) : World := mk_world file 0 [] [] [].

(** [Customers] has one row and [Orders] six. *)
Definition reply_1_6 (config : table_config) : db_reply :=
  if String.eqb (table config) "Customers" then Rows (rows_of 1)
  else Rows (rows_of 6).

(** The tables of the first server have three rows, those of the second
    server two. *)
Definition reply_3_2 (config : table_config) : db_reply :=
  if String.eqb (server_ip config) "10.0.0.1" then Rows (rows_of 3)
  else Rows (rows_of 2).

End Sample.
(** ** Facts about the text primitives *)

Arguments read_state_of : simpl never.
Arguments state_text : simpl never.
Arguments send_to_syslog : simpl never.

Ltac bool_nat :=
  repeat match goal with
  | |- context [(?a <=? ?b)%nat] => destruct (Nat.leb_spec a b)
  | |- context [(?a =? ?b)%nat] => destruct (Nat.eqb_spec a b)
  | H : context [(?a <=? ?b)%nat] |- _ => destruct (Nat.leb_spec a b)
  | H : context [(?a =? ?b)%nat] |- _ => destruct (Nat.eqb_spec a b)
  end; simpl in *; try reflexivity; try discriminate; try lia.

Lemma string_app_nil_r (s : string) : s ++ "" = s.
Proof. induction s; simpl; congruence. Qed.

Lemma string_app_assoc (a b c : string) : (a ++ b) ++ c = a ++ b ++ c.
Proof. induction a; simpl; congruence. Qed.

Lemma all_chars_app (p : ascii -> bool) (a b : string) :
  all_chars p (a ++ b) = all_chars p a && all_chars p b.
Proof.
  induction a as [|c a IH]; simpl; [reflexivity|].
  rewrite IH. apply andb_assoc.
Qed.

Lemma all_chars_impl (p q : ascii -> bool) (s : string) :
  (forall c, p c = true -> q c = true) ->
  all_chars p s = true -> all_chars q s = true.
Proof.
  intros Hpq. induction s as [|c s IH]; simpl; [reflexivity|].
  intros H. apply andb_true_iff in H as [Hc Hs].
  rewrite (Hpq _ Hc), (IH Hs). reflexivity.
Qed.

Lemma lstrip_with_keep (p : ascii -> bool) (c : ascii) (s : string) :
  p c = false -> lstrip_with p (String c s) = String c s.
Proof. intros H. simpl. rewrite H. reflexivity. Qed.

Lemma rstrip_with_blank (p : ascii -> bool) (t : string) :
  all_chars p t = true -> rstrip_with p t = "".
Proof.
  induction t as [|c t IH]; simpl; [reflexivity|].
  intros H. apply andb_true_iff in H as [Hc Ht].
  rewrite (IH Ht), Hc. reflexivity.
Qed.

Lemma rstrip_with_app_blank (p : ascii -> bool) (s t : string) :
  all_chars p t = true -> rstrip_with p (s ++ t) = rstrip_with p s.
Proof.
  intros Ht. induction s as [|c s IH]; simpl.
  - apply rstrip_with_blank, Ht.
  - rewrite IH. reflexivity.
Qed.

Lemma rstrip_with_app_keep (p : ascii -> bool) (a b : string) :
  rstrip_with p b <> "" -> rstrip_with p (a ++ b) = a ++ rstrip_with p b.
Proof.
  intros Hb. induction a as [|c a IH]; simpl; [reflexivity|].
  rewrite IH. destruct (a ++ rstrip_with p b) eqn:E; [|reflexivity].
  destruct a; simpl in E; [contradiction | discriminate].
Qed.

Lemma rstrip_with_none (p : ascii -> bool) (s : string) :
  all_chars (fun c => negb (p c)) s = true -> rstrip_with p s = s.
Proof.
  induction s as [|c s IH]; simpl; [reflexivity|].
  intros H. apply andb_true_iff in H as [Hc Hs].
  rewrite (IH Hs). apply negb_true_iff in Hc. rewrite Hc.
  destruct s; reflexivity.
Qed.

(** What [strip] leaves is empty or begins with a character that is not a
    blank, and is a piece of the text. *)
Lemma rstrip_with_head (p : ascii -> bool) (c : ascii) (s : string) :
  rstrip_with p (String c s) = "" \/
  exists r, rstrip_with p (String c s) = String c r.
Proof.
  simpl. destruct (rstrip_with p s).
  - destruct (p c); [left | right; exists ""]; reflexivity.
  - right. eexists. reflexivity.
Qed.

Lemma lstrip_isspace_head (s : string) :
  starts_with_space (lstrip_with isspace s) = false.
Proof.
  induction s as [|c s IH]; simpl; [reflexivity|].
  destruct (isspace c) eqn:E; [exact IH | simpl; exact E].
Qed.

Lemma strip_head (s : string) : starts_with_space (strip s) = false.
Proof.
  unfold strip. pose proof (lstrip_isspace_head s) as H.
  destruct (lstrip_with isspace s) as [|c r]; [reflexivity|].
  destruct (rstrip_with_head isspace c r) as [E | [r' E]]; rewrite E.
  - reflexivity.
  - exact H.
Qed.

Lemma all_chars_lstrip (q p : ascii -> bool) (s : string) :
  all_chars q s = true -> all_chars q (lstrip_with p s) = true.
Proof.
  induction s as [|c s IH]; simpl; [reflexivity|].
  intros H. destruct (p c); [|exact H].
  apply andb_true_iff in H as [_ Hs]. auto.
Qed.

Lemma all_chars_rstrip (q p : ascii -> bool) (s : string) :
  all_chars q s = true -> all_chars q (rstrip_with p s) = true.
Proof.
  induction s as [|c s IH]; simpl; [reflexivity|].
  intros H. apply andb_true_iff in H as [Hc Hs]. specialize (IH Hs).
  destruct (rstrip_with p s).
  - destruct (p c); simpl; [reflexivity | rewrite Hc; reflexivity].
  - simpl in *. rewrite Hc. exact IH.
Qed.

Lemma all_chars_strip (q : ascii -> bool) (s : string) :
  all_chars q s = true -> all_chars q (strip s) = true.
Proof. intros H. apply all_chars_rstrip, all_chars_lstrip, H. Qed.

(** A terminator at the end of a line does not change what [strip] gives. *)
Lemma strip_app_blank (s t : string) :
  all_chars isspace t = true -> strip (s ++ t) = strip s.
Proof.
  intros Ht. unfold strip. induction s as [|c s IH]; simpl.
  - rewrite (rstrip_with_blank isspace (lstrip_with isspace t)); [reflexivity|].
    apply all_chars_lstrip, Ht.
  - destruct (isspace c); [exact IH|].
    change (String c (s ++ t)) with (String c s ++ t).
    apply rstrip_with_app_blank, Ht.
Qed.

(** [split] *)
Lemma split_no_sep (sep : ascii) (s : string) :
  all_chars (fun c => negb (Ascii.eqb c sep)) s = true -> split sep s = [s].
Proof.
  induction s as [|c s IH]; simpl; [reflexivity|].
  intros H. apply andb_true_iff in H as [Hc Hs].
  apply negb_true_iff in Hc. rewrite Hc, (IH Hs). reflexivity.
Qed.

Lemma split_app (sep : ascii) (a b : string) :
  all_chars (fun c => negb (Ascii.eqb c sep)) a = true ->
  split sep (a ++ String sep b) = a :: split sep b.
Proof.
  induction a as [|c a IH]; simpl.
  - intros _. rewrite Ascii.eqb_refl. reflexivity.
  - intros H. apply andb_true_iff in H as [Hc Ha].
    apply negb_true_iff in Hc. rewrite Hc, (IH Ha). reflexivity.
Qed.

Lemma split_parts (sep : ascii) (s : string) :
  Forall (fun part => all_chars (fun c => negb (Ascii.eqb c sep)) part = true)
         (split sep s).
Proof.
  induction s as [|c s IH]; simpl.
  - repeat constructor.
  - destruct (Ascii.eqb c sep) eqn:E.
    + constructor; [reflexivity | exact IH].
    + destruct (split sep s) as [|h t].
      * repeat constructor. simpl. rewrite E. reflexivity.
      * inversion IH; subst. constructor; [|assumption].
        simpl. rewrite E. simpl. assumption.
Qed.

(** The first part of a split begins as the text does. *)
Lemma split_head_space (sep : ascii) (s : string) (h : string) (t : list string) :
  split sep s = h :: t -> starts_with_space s = false -> starts_with_space h = false.
Proof.
  destruct s as [|c s]; simpl.
  - intros E _. inversion E; reflexivity.
  - destruct (Ascii.eqb c sep).
    + intros E _. inversion E; reflexivity.
    + destruct (split sep s); intros E Hc; inversion E; subst; exact Hc.
Qed.

Lemma split_all_chars (q : ascii -> bool) (sep : ascii) (s : string) :
  all_chars q s = true -> Forall (fun part => all_chars q part = true) (split sep s).
Proof.
  induction s as [|c s IH]; simpl.
  - repeat constructor.
  - intros H. apply andb_true_iff in H as [Hc Hs]. specialize (IH Hs).
    destruct (Ascii.eqb c sep).
    + constructor; [reflexivity | exact IH].
    + destruct (split sep s) as [|h t].
      * repeat constructor. simpl. rewrite Hc. reflexivity.
      * inversion IH; subst. constructor; [|assumption].
        simpl. rewrite Hc. assumption.
Qed.

(** [file_lines] *)
Lemma file_lines_line (s rest : string) :
  no_newline s = true ->
  file_lines (s ++ nl ++ rest) = (s ++ nl) :: file_lines rest.
Proof.
  change (nl ++ rest) with (String LF rest).
  unfold no_newline, is_newline. induction s as [|c s IH]; simpl.
  - reflexivity.
  - intros H. apply andb_true_iff in H as [Hc Hs].
    apply negb_true_iff, orb_false_iff in Hc as [H1 H2].
    rewrite H1, H2, (IH Hs). reflexivity.
Qed.

Lemma file_lines_shape (text : string) :
  Forall (fun l => exists body,
            no_newline body = true /\ (l = body \/ l = body ++ nl))
         (file_lines text).
Proof.
  assert (Hnl : exists body, no_newline body = true /\ (nl = body \/ nl = body ++ nl))
    by (exists ""; split; [reflexivity | right; reflexivity]).
  induction text as [|c r IH]; simpl; [constructor|].
  destruct (Ascii.eqb c LF) eqn:E1; [constructor; assumption|].
  destruct (Ascii.eqb c CR) eqn:E2.
  - destruct r as [|c' r']; [repeat constructor; assumption|].
    destruct (Ascii.eqb c' LF) eqn:E3; [|constructor; assumption].
    simpl in IH. rewrite E3 in IH. inversion IH; subst.
    constructor; assumption.
  - assert (Hc : negb (is_newline c) = true)
      by (unfold is_newline; rewrite E1, E2; reflexivity).
    destruct (file_lines r) as [|l ls].
    + repeat constructor. exists (String c ""). split; [|left; reflexivity].
      unfold no_newline. simpl. rewrite Hc. reflexivity.
    + inversion IH as [|? ? [body [Hb Hl]] Hls]; subst.
      constructor; [|assumption].
      exists (String c body). split.
      * unfold no_newline in *. simpl. rewrite Hc. exact Hb.
      * destruct Hl as [-> | ->]; [left | right]; reflexivity.
Qed.

Lemma file_lines_strip_no_newline (text : string) :
  Forall (fun l => no_newline (strip l) = true) (file_lines text).
Proof.
  eapply Forall_impl; [|apply file_lines_shape].
  intros l [body [Hb [-> | ->]]].
  - apply all_chars_strip, Hb.
  - rewrite strip_app_blank by reflexivity. apply all_chars_strip, Hb.
Qed.

(** [str] and [int] *)
Lemma uint_digits (d : Decimal.uint) :
  all_chars isdigit (NilEmpty.string_of_uint d) = true.
Proof. induction d; simpl; auto. Qed.

Lemma uint_nonempty (d : Decimal.uint) :
  d <> Decimal.Nil -> NilEmpty.string_of_uint d <> "".
Proof. destruct d; simpl; intros H; congruence. Qed.

Lemma digits_of_digits (s : string) (after_digit : bool) :
  all_chars isdigit s = true -> s <> "" \/ after_digit = true ->
  digits_of after_digit s = Some s.
Proof.
  revert after_digit. induction s as [|c s IH]; simpl; intros b Hs Hb.
  - destruct Hb as [Hb | ->]; [contradiction | reflexivity].
  - apply andb_true_iff in Hs as [Hc Hs]. rewrite Hc.
    rewrite (IH true Hs) by (right; reflexivity). reflexivity.
Qed.

Lemma nat_literal_uint (d : Decimal.uint) :
  d <> Decimal.Nil ->
  nat_literal (NilEmpty.string_of_uint d) = Some (Z.of_uint d).
Proof.
  intros Hd. unfold nat_literal.
  rewrite digits_of_digits.
  - rewrite NilEmpty.usu. reflexivity.
  - apply uint_digits.
  - left. apply uint_nonempty, Hd.
Qed.

Lemma digit_plain (c : ascii) :
  isdigit c = true ->
  isspace c = false /\ int_space c = false /\ is_newline c = false
  /\ Ascii.eqb c colon = false /\ Ascii.eqb c "-" = false /\ Ascii.eqb c "+" = false.
Proof.
  unfold isdigit, isspace, int_space, is_newline, colon, LF, CR. intros H.
  repeat split;
    try (destruct (Ascii.eqb_spec c ":"); [subst; discriminate | reflexivity]);
    try (destruct (Ascii.eqb_spec c "-"); [subst; discriminate | reflexivity]);
    try (destruct (Ascii.eqb_spec c "+"); [subst; discriminate | reflexivity]).
  - bool_nat.
  - bool_nat.
  - destruct (Ascii.eqb_spec c "010"); [subst; discriminate|].
    destruct (Ascii.eqb_spec c "013"); [subst; discriminate | reflexivity].
Qed.

Lemma str_pos (p : positive) :
  str (Z.pos p) = NilEmpty.string_of_uint (Pos.to_uint p).
Proof.
  unfold str. simpl. unfold NilZero.string_of_uint.
  pose proof (DecimalPos.Unsigned.to_uint_nonnil p).
  destruct (Pos.to_uint p); congruence.
Qed.

Lemma str_neg (p : positive) :
  str (Z.neg p) = String "-" (NilEmpty.string_of_uint (Pos.to_uint p)).
Proof.
  unfold str. simpl. unfold NilZero.string_of_uint.
  pose proof (DecimalPos.Unsigned.to_uint_nonnil p).
  destruct (Pos.to_uint p); congruence.
Qed.

(** The text of a number: an optional minus sign and digits, so free of
    blanks, colons and line breaks. *)
Lemma str_plain (n : Z) :
  all_chars (fun c => negb (isspace c)) (str n) = true
  /\ all_chars (fun c => negb (int_space c)) (str n) = true
  /\ no_colon (str n) = true
  /\ no_newline (str n) = true
  /\ str n <> "".
Proof.
  assert (Hd : forall d, d <> Decimal.Nil ->
    let s := NilEmpty.string_of_uint d in
    all_chars (fun c => negb (isspace c)) s = true
    /\ all_chars (fun c => negb (int_space c)) s = true
    /\ no_colon s = true /\ no_newline s = true /\ s <> "").
  { intros d Hnil s. pose proof (uint_digits d) as H. fold s in H.
    repeat split;
      try (eapply all_chars_impl; [|exact H]; intros c Hc;
           destruct (digit_plain c Hc) as (A & B & C & D & _);
           rewrite ?A, ?B, ?C, ?D; reflexivity).
    apply uint_nonempty, Hnil. }
  destruct n as [|p|p].
  - repeat split; discriminate.
  - rewrite str_pos. apply Hd, DecimalPos.Unsigned.to_uint_nonnil.
  - rewrite str_neg.
    destruct (Hd (Pos.to_uint p) (DecimalPos.Unsigned.to_uint_nonnil p))
      as (A & B & C & D & _).
    unfold no_colon, no_newline in *. simpl.
    rewrite A, B, C, D. repeat split; discriminate.
Qed.

Lemma int_str (n : Z) : int (str n) = Some n.
Proof.
  destruct (str_plain n) as (_ & Hsp & _ & _ & Hne).
  unfold int.
  assert (E : lstrip_with int_space (str n) = str n).
  { destruct (str n) as [|c s]; [contradiction|].
    simpl in Hsp. apply andb_true_iff in Hsp as [Hc _].
    apply negb_true_iff in Hc. apply lstrip_with_keep, Hc. }
  rewrite E, (rstrip_with_none _ _ Hsp). clear E Hsp Hne.
  destruct n as [|p|p].
  - reflexivity.
  - rewrite str_pos.
    pose proof (uint_digits (Pos.to_uint p)) as Hd.
    pose proof (nat_literal_uint _ (DecimalPos.Unsigned.to_uint_nonnil p)) as Hl.
    destruct (NilEmpty.string_of_uint (Pos.to_uint p)) as [|c s] eqn:Es.
    + exfalso. revert Es. apply uint_nonempty, DecimalPos.Unsigned.to_uint_nonnil.
    + simpl in Hd. apply andb_true_iff in Hd as [Hc _].
      destruct (digit_plain c Hc) as (_ & _ & _ & _ & Hm & Hp).
      rewrite Hm, Hp, Hl. simpl. unfold Z.of_uint.
      rewrite DecimalPos.Unsigned.of_to. reflexivity.
  - rewrite str_neg. rewrite Ascii.eqb_refl.
    rewrite nat_literal_uint by apply DecimalPos.Unsigned.to_uint_nonnil.
    simpl. unfold Z.of_uint. rewrite DecimalPos.Unsigned.of_to. reflexivity.
Qed.

(** ** Facts about dicts *)

Lemma dict_get_set_same {V : Type} (d : dict V) (k : string) (v : V) :
  dict_get (dict_set d k v) k = Some v.
Proof.
  induction d as [|[k' v'] d IH]; simpl.
  - rewrite String.eqb_refl. reflexivity.
  - destruct (String.eqb k k') eqn:E; simpl; rewrite E; auto.
Qed.

Lemma dict_get_set_other {V : Type} (d : dict V) (k k' : string) (v : V) :
  k' <> k -> dict_get (dict_set d k v) k' = dict_get d k'.
Proof.
  intros Hk. induction d as [|[k0 v0] d IH]; simpl.
  - destruct (String.eqb_spec k' k); [contradiction | reflexivity].
  - destruct (String.eqb_spec k k0); simpl.
    + subst. destruct (String.eqb_spec k' k0); [contradiction | reflexivity].
    + rewrite IH. reflexivity.
Qed.

Lemma dict_get_none {V : Type} (d : dict V) (k : string) :
  dict_get d k = None <-> ~ In k (keys d).
Proof.
  induction d as [|[k' v'] d IH]; simpl.
  - tauto.
  - destruct (String.eqb_spec k k').
    + split; [discriminate | intros H; exfalso; apply H; left; congruence].
    + rewrite IH. split; [intros H [E | I]; [congruence | auto] | tauto].
Qed.

Lemma dict_set_absent {V : Type} (d : dict V) (k : string) (v : V) :
  dict_get d k = None -> dict_set d k v = (d ++ [(k, v)])%list.
Proof.
  induction d as [|[k' v'] d IH]; simpl; [reflexivity|].
  destruct (String.eqb k k'); [discriminate|].
  intros H. rewrite (IH H). reflexivity.
Qed.

Lemma keys_dict_set_present {V : Type} (d : dict V) (k : string) (v : V) :
  dict_get d k <> None -> keys (dict_set d k v) = keys d.
Proof.
  induction d as [|[k' v'] d IH]; simpl; [congruence|].
  destruct (String.eqb k k'); simpl; [reflexivity|].
  intros H. rewrite (IH H). reflexivity.
Qed.

Lemma keys_dict_set {V : Type} (d : dict V) (k : string) (v : V) :
  keys (dict_set d k v) = keys d \/ keys (dict_set d k v) = (keys d ++ [k])%list.
Proof.
  destruct (dict_get d k) eqn:E.
  - left. apply keys_dict_set_present. congruence.
  - right. rewrite (dict_set_absent _ _ _ E). unfold keys. rewrite map_app. reflexivity.
Qed.

Lemma keys_dict_set_nodup {V : Type} (d : dict V) (k : string) (v : V) :
  NoDup (keys d) -> NoDup (keys (dict_set d k v)).
Proof.
  intros H. destruct (dict_get d k) eqn:E.
  - rewrite keys_dict_set_present by congruence. exact H.
  - rewrite (dict_set_absent _ _ _ E). unfold keys. rewrite map_app. simpl.
    apply NoDup_app; [exact H | repeat constructor; simpl; tauto |].
    intros a Ha [<- | []]. apply dict_get_none in E. contradiction.
Qed.

Lemma keys_dict_set_forall {V : Type} (P : string -> Prop) (d : dict V) (k : string) (v : V) :
  Forall P (keys d) -> P k -> Forall P (keys (dict_set d k v)).
Proof.
  intros Hd Hk. destruct (keys_dict_set d k v) as [-> | ->]; [exact Hd|].
  apply Forall_app. split; [exact Hd | repeat constructor; exact Hk].
Qed.

(** ** The state file gives back what was written *)

Lemma key_ok_field (k : string) : key_ok k = true -> field_ok k = true.
Proof. unfold key_ok. intros H. apply andb_true_iff in H. tauto. Qed.

Lemma key_ok_lstrip (k : string) :
  key_ok k = true -> lstrip_with isspace k = k.
Proof.
  unfold key_ok. intros H. apply andb_true_iff in H as [_ H].
  apply negb_true_iff in H. destruct k; [reflexivity|].
  apply lstrip_with_keep, H.
Qed.

Lemma text_fold_app (d : dict Z) (acc : string) :
  fold_left (fun text item => text ++ fst item ++ ":" ++ str (snd item) ++ nl) d acc
  = acc ++ state_text d.
Proof.
  unfold state_text. revert acc. induction d as [|item d IH]; intros acc; simpl.
  - symmetry. apply string_app_nil_r.
  - rewrite IH, (IH (fst item ++ _)). apply string_app_assoc.
Qed.

Lemma state_text_cons (item : string * Z) (d : dict Z) :
  state_text (item :: d) = state_line item ++ state_text d.
Proof. unfold state_text at 1. simpl. apply text_fold_app. Qed.

Lemma file_lines_state_text (d : dict Z) :
  Forall (fun k => field_ok k = true) (keys d) ->
  file_lines (state_text d) = map state_line d.
Proof.
  induction d as [|[k v] d IH]; simpl; intros H; [reflexivity|].
  inversion H as [|? ? Hk Hd]; subst.
  rewrite state_text_cons. unfold state_line at 1. simpl fst; simpl snd.
  replace ((k ++ ":" ++ str v ++ nl) ++ state_text d)
    with ((k ++ ":" ++ str v) ++ nl ++ state_text d)
    by (rewrite !string_app_assoc; reflexivity).
  rewrite file_lines_line.
  - rewrite (IH Hd). unfold state_line. simpl.
    rewrite !string_app_assoc. reflexivity.
  - unfold field_ok in Hk. apply andb_true_iff in Hk as [_ Hk].
    destruct (str_plain v) as (_ & _ & _ & Hn & _).
    unfold no_newline in *. rewrite all_chars_app, Hk. simpl.
    exact Hn.
Qed.

Lemma lstrip_with_app_keep (p : ascii -> bool) (a : string) (c : ascii) (b : string) :
  p c = false ->
  lstrip_with p (a ++ String c b) = lstrip_with p a ++ String c b.
Proof.
  intros Hc. induction a as [|c' a IH]; simpl.
  - rewrite Hc. reflexivity.
  - destruct (p c'); [exact IH | reflexivity].
Qed.

Lemma strip_state_line (k : string) (v : Z) :
  strip (state_line (k, v)) = lstrip_with isspace k ++ ":" ++ str v.
Proof.
  unfold state_line. simpl fst; simpl snd.
  replace (k ++ ":" ++ str v ++ nl) with ((k ++ ":" ++ str v) ++ nl)
    by (rewrite !string_app_assoc; reflexivity).
  rewrite strip_app_blank by reflexivity.
  unfold strip. change (":" ++ str v) with (String ":" (str v)).
  rewrite lstrip_with_app_keep by reflexivity.
  destruct (str_plain v) as (Hs & _).
  assert (E : rstrip_with isspace (String ":" (str v)) = String ":" (str v)).
  { apply rstrip_with_none. simpl. exact Hs. }
  rewrite rstrip_with_app_keep; rewrite E; [reflexivity | discriminate].
Qed.

Lemma split_state_line (k : string) (v : Z) :
  field_ok k = true ->
  split colon (strip (state_line (k, v))) = [lstrip_with isspace k; str v].
Proof.
  intros Hk. rewrite strip_state_line.
  change (":" ++ str v) with (String colon (str v)).
  unfold field_ok in Hk. apply andb_true_iff in Hk as [Hk _].
  rewrite split_app by (apply all_chars_lstrip, Hk).
  destruct (str_plain v) as (_ & _ & Hc & _).
  rewrite (split_no_sep _ _ Hc). reflexivity.
Qed.

Lemma read_state_lines_written (d state : dict Z) :
  Forall (fun k => field_ok k = true) (keys d) ->
  read_state_lines (map state_line d) state = Ok (reread d state).
Proof.
  revert state. induction d as [|[k v] d IH]; intros state H; simpl; [reflexivity|].
  inversion H as [|? ? Hk Hd]; subst.
  rewrite (split_state_line k v Hk), int_str. apply IH, Hd.
Qed.

Lemma reread_fresh (d state : dict Z) :
  NoDup (keys state ++ keys d) ->
  Forall (fun k => key_ok k = true) (keys d) ->
  reread d state = (state ++ d)%list.
Proof.
  revert state. induction d as [|[k v] d IH]; intros state Hnd Hok; simpl.
  - symmetry. apply app_nil_r.
  - inversion Hok as [|? ? Hk Hd]; subst. simpl in Hnd.
    rewrite (key_ok_lstrip k Hk).
    assert (Habs : dict_get state k = None).
    { apply dict_get_none. apply NoDup_remove_2 in Hnd.
      intros I. apply Hnd, in_or_app. left. exact I. }
    rewrite (dict_set_absent _ _ _ Habs).
    unfold reread in IH. rewrite IH; [rewrite <- app_assoc; reflexivity | | exact Hd].
    unfold keys in *. rewrite map_app, <- app_assoc. simpl. exact Hnd.
Qed.

Lemma reread_id (d : dict Z) :
  NoDup (keys d) -> Forall (fun k => key_ok k = true) (keys d) ->
  reread d [] = d.
Proof. intros H1 H2. apply (reread_fresh d []); assumption. Qed.

Lemma reread_app (d1 d2 state : dict Z) :
  reread (d1 ++ d2)%list state = reread d2 (reread d1 state).
Proof. unfold reread. apply fold_left_app. Qed.

(** Every key [read_state] yields is a field that begins with no blank,
    and no key comes twice. *)
Lemma read_state_lines_keys (lines : list string) (state state' : dict Z) :
  Forall (fun l => no_newline (strip l) = true) lines ->
  read_state_lines lines state = Ok state' ->
  NoDup (keys state) /\ Forall (fun k => key_ok k = true) (keys state) ->
  NoDup (keys state') /\ Forall (fun k => key_ok k = true) (keys state').
Proof.
  revert state. induction lines as [|line rest IH]; intros state Hl Hr Hs.
  - simpl in Hr. inversion Hr; subst. exact Hs.
  - inversion Hl as [|? ? Hline Hrest]; subst. simpl in Hr.
    destruct (split colon (strip line)) as [|k [|n [|x xs]]] eqn:E;
      try (apply (IH _ Hrest Hr Hs)).
    destruct (int n); [|discriminate].
    apply (IH _ Hrest Hr). destruct Hs as [Hnd Hok]. split.
    + apply keys_dict_set_nodup, Hnd.
    + apply keys_dict_set_forall; [exact Hok|].
      pose proof (split_parts colon (strip line)) as Hp.
      pose proof (split_all_chars _ colon (strip line) Hline) as Hn.
      pose proof (split_head_space colon _ _ _ E (strip_head line)) as Hh.
      rewrite E in Hp, Hn. inversion Hp; inversion Hn; subst.
      unfold key_ok, field_ok, no_colon, no_newline.
      rewrite Hh. repeat (apply andb_true_iff; split); auto.
Qed.

Lemma read_state_keys (file : option string) (state : dict Z) :
  read_state_of file = Ok state ->
  NoDup (keys state) /\ Forall (fun k => key_ok k = true) (keys state).
Proof.
  destruct file as [text|]; unfold read_state_of; intros H.
  - apply (read_state_lines_keys _ _ _ (file_lines_strip_no_newline text) H).
    split; constructor.
  - inversion H; subst. split; constructor.
Qed.

Lemma read_written (d : dict Z) :
  NoDup (keys d) -> Forall (fun k => key_ok k = true) (keys d) ->
  read_state_of (Some (state_text d)) = Ok d.
Proof.
  intros Hnd Hok. unfold read_state_of.
  assert (Hf : Forall (fun k => field_ok k = true) (keys d))
    by (eapply Forall_impl; [|exact Hok]; apply key_ok_field).
  rewrite (file_lines_state_text _ Hf), (read_state_lines_written _ _ Hf).
  rewrite (reread_id _ Hnd Hok). reflexivity.
Qed.

(** Reading back after [state[table_name] = v] was written: the entry is
    found under the table name without the blanks in front of it. *)
Lemma read_after_set (file : option string) (state : dict Z) (t : string) (v : Z) :
  read_state_of file = Ok state -> field_ok t = true ->
  read_state_of (Some (state_text (dict_set state t v)))
  = Ok (dict_set state (lstrip_with isspace t) v).
Proof.
  intros Hr Ht. destruct (read_state_keys _ _ Hr) as [Hnd Hok].
  destruct (dict_get state t) eqn:E.
  - assert (Hk : key_ok t = true).
    { rewrite Forall_forall in Hok. apply Hok.
      destruct (in_dec string_dec t (keys state)) as [I | N]; [exact I|].
      apply dict_get_none in N. congruence. }
    rewrite (key_ok_lstrip t Hk). apply read_written.
    + apply keys_dict_set_nodup, Hnd.
    + apply keys_dict_set_forall; assumption.
  - rewrite (dict_set_absent _ _ _ E). unfold read_state_of.
    assert (Hf : Forall (fun k => field_ok k = true) (keys (state ++ [(t, v)])%list)).
    { unfold keys. rewrite map_app. apply Forall_app. split.
      - eapply Forall_impl; [|exact Hok]. apply key_ok_field.
      - repeat constructor. exact Ht. }
    rewrite (file_lines_state_text _ Hf), (read_state_lines_written _ _ Hf).
    rewrite reread_app, (reread_id _ Hnd Hok). reflexivity.
Qed.

(** ** The steps of the program *)

Lemma quiet_refl (w : World) : quiet w w.
Proof. repeat split. Qed.

Lemma quiet_trans (w1 w2 w3 : World) : quiet w1 w2 -> quiet w2 w3 -> quiet w1 w3.
Proof.
  unfold quiet. intros (A & B & C & D) (A' & B' & C' & D').
  repeat split; congruence.
Qed.

Lemma print_quiet (line : string) (w : World) :
  fst (print line w) = Ok tt /\ quiet w (snd (print line w)).
Proof. repeat split. Qed.

Lemma update_state_run (t : string) (v : Z) (w : World) (state : dict Z) :
  read_state_of (state_file w) = Ok state ->
  update_state t v w
  = (Ok tt, set_state_file (Some (state_text (dict_set state t v))) w).
Proof.
  intros H. unfold update_state, bind, read_state. rewrite H. reflexivity.
Qed.

Lemma update_state_raises (t : string) (v : Z) (w : World) (e : exn) :
  read_state_of (state_file w) = Raise e -> update_state t v w = (Raise e, w).
Proof.
  intros H. unfold update_state, bind, read_state. rewrite H. reflexivity.
Qed.

(** Every call of [send_to_syslog] stops at the construction of the
    handler: it raises [TypeError] and leaves the world as it found it. *)
Lemma send_to_syslog_raises (env : Env) (data : list row)
    (config : table_config) (w : World) :
  send_to_syslog env data config w = (Raise TypeError, w).
Proof. reflexivity. Qed.




(** [fetch_data_from_db], by what the database answers. *)
Lemma fetch_body_run (env : Env) (config : table_config) (w : World) (state : dict Z) :
  read_state_of (state_file w) = Ok state ->
  let connected :=
    Connected (connection_string config (getpass env config)) in
  let executed := Executed ("SELECT * FROM " ++ table config) in
  fetch_body env config w =
  match sql_server env config with
  | ConnectError msg => (Raise (PyodbcError msg), w)
  | CursorError msg | ExecuteError msg =>
      (Raise (PyodbcError msg), set_db_log (db_log w ++ [connected])%list w)
  | FetchallError msg =>
      (Raise (PyodbcError msg),
       set_db_log (db_log w ++ [connected; executed])%list w)
  | Rows rows =>
      (Ok rows,
       set_db_log (db_log w ++ [connected; executed; Fetched; Closed])%list w)
  end.
Proof.
  intros Hr connected executed.
  unfold fetch_body, bind at 1, read_state. rewrite Hr.
  unfold pyodbc_connect, connection_cursor, cursor_execute, cursor_fetchall,
    connection_close, bind, raise, ret, db_do.
  destruct (sql_server env config); simpl; unfold set_db_log; simpl;
    rewrite <- ?app_assoc; reflexivity.
Qed.

Lemma fetch_body_raises (env : Env) (config : table_config) (w : World) (e : exn) :
  read_state_of (state_file w) = Raise e ->
  fetch_body env config w = (Raise e, w).
Proof.
  intros Hr. unfold fetch_body, bind at 1, read_state. rewrite Hr. reflexivity.
Qed.

(** The [try] body of [fetch_data_from_db] touches nothing but the
    database. *)
Lemma fetch_body_frame (env : Env) (config : table_config) (w : World) :
  let w' := snd (fetch_body env config w) in
  state_file w' = state_file w /\ logger_handlers w' = logger_handlers w
  /\ syslog w' = syslog w /\ console w' = console w.
Proof.
  destruct (read_state_of (state_file w)) as [state|e] eqn:Hr.
  - rewrite (fetch_body_run _ _ _ _ Hr).
    destruct (sql_server env config); simpl; repeat split.
  - rewrite (fetch_body_raises _ _ _ _ Hr). simpl. repeat split.
Qed.

(** ** Loading the jobs *)

Lemma load_table_lines_run (server_dict : dict server_config)
    (lines : list string) (table_configs : list table_config) (w : World) :
  Forall (fun line => length (split colon (strip line)) = 3%nat) lines ->
  exists w',
    load_table_lines server_dict lines table_configs w
    = (Ok (table_configs ++ flat_map (jobs_of_line server_dict) lines)%list, w')
    /\ quiet w w'.
Proof.
  revert table_configs w.
  induction lines as [|line rest IH]; intros acc w H.
  - exists w. simpl. rewrite app_nil_r. split; [reflexivity | apply quiet_refl].
  - inversion H as [|? ? Hline Hrest]; subst. simpl. unfold jobs_of_line at 1.
    destruct (split colon (strip line)) as [|a [|b [|c [|x xs]]]];
      try discriminate.
    destruct (dict_get server_dict a) as [config|].
    + destruct (IH (acc ++ [mk_table_config (srv_server_ip config) (srv_user config) b c])%list
                   w Hrest) as [w' [E Q]].
      exists w'. rewrite E. simpl. rewrite <- app_assoc. split; [reflexivity | exact Q].
    + unfold bind. simpl.
      match goal with
      | |- context [load_table_lines _ _ _ ?w1] =>
          destruct (IH acc w1 Hrest) as [w' [E Q]]
      end.
      exists w'. rewrite E. split; [reflexivity|].
      eapply quiet_trans; [|exact Q]. repeat split.
Qed.

Lemma load_table_lines_quiet (server_dict : dict server_config)
    (lines : list string) (table_configs : list table_config) (w : World) :
  quiet w (snd (load_table_lines server_dict lines table_configs w)).
Proof.
  revert table_configs w.
  induction lines as [|line rest IH]; intros acc w; simpl.
  - apply quiet_refl.
  - destruct (split colon (strip line)) as [|a [|b [|c [|x xs]]]];
      try apply quiet_refl.
    destruct (dict_get server_dict a) as [config|]; [apply IH|].
    unfold bind. simpl.
    match goal with
    | |- context [load_table_lines _ _ _ ?w1] =>
        pose proof (IH acc w1) as Q
    end.
    destruct (load_table_lines _ _ _ _) as [[jobs|e] w']; simpl in *;
      (eapply quiet_trans; [|exact Q]); repeat split.
Qed.

Lemma load_table_configs_quiet (env : Env) (w : World) :
  quiet w (snd (load_table_configs env w)).
Proof.
  unfold load_table_configs, load_server_configs, bind, ret, raise.
  destruct (login_json env); [|apply quiet_refl].
  destruct (tables_txt env); [|apply quiet_refl].
  apply load_table_lines_quiet.
Qed.

(** The fields of a job that was loaded are fields of a line. *)
Lemma jobs_of_line_field (server_dict : dict server_config) (line : string) :
  no_newline (strip line) = true ->
  Forall (fun c => field_ok (table c) = true) (jobs_of_line server_dict line).
Proof.
  intros Hn. unfold jobs_of_line.
  pose proof (split_parts colon (strip line)) as Hp.
  pose proof (split_all_chars _ colon (strip line) Hn) as Hq.
  destruct (split colon (strip line)) as [|a [|b [|c [|x xs]]]]; try constructor.
  destruct (dict_get server_dict a); constructor; [|constructor].
  simpl. unfold field_ok, no_colon, no_newline.
  inversion Hp as [|? ? _ Hp1]; inversion Hp1 as [|? ? _ Hp2];
    inversion Hp2 as [|? ? Hc _]; subst.
  inversion Hq as [|? ? _ Hq1]; inversion Hq1 as [|? ? _ Hq2];
    inversion Hq2 as [|? ? Hd _]; subst.
  rewrite Hc. exact Hd.
Qed.

(** ** Creating the state file *)

Lemma initial_state_text_eq (table_configs : list table_config) :
  initial_state_text table_configs
  = state_text (map (fun c => (table c, 0%Z)) table_configs).
Proof.
  unfold initial_state_text, state_text.
  assert (H : forall acc : string,
    fold_left (fun text config => text ++ table config ++ ":0" ++ nl)
              table_configs acc
    = fold_left (fun text item => text ++ fst item ++ ":" ++ str (snd item) ++ nl)
                (map (fun c => (table c, 0%Z)) table_configs) acc).
  { induction table_configs as [|c rest IH]; intros acc; simpl; [reflexivity|].
    apply IH. }
  apply H.
Qed.

Lemma create_state_file_absent (table_configs : list table_config) (w : World) :
  state_file w = None ->
  create_state_file table_configs w
  = (Ok tt,
     mk_world (Some (initial_state_text table_configs)) (logger_handlers w)
       (syslog w) (console w ++ ["State file created!"])%list (db_log w)).
Proof. intros H. unfold create_state_file. rewrite H. reflexivity. Qed.

Lemma create_state_file_present (table_configs : list table_config) (w : World)
    (text : string) :
  state_file w = Some text -> create_state_file table_configs w = (Ok tt, w).
Proof. intros H. unfold create_state_file. rewrite H. reflexivity. Qed.

Lemma reread_get (d state : dict Z) (k : string) (v : Z) :
  Forall (fun item => snd item = v) d ->
  In k (map (fun item => lstrip_with isspace (fst item)) d)
  \/ dict_get state k = Some v ->
  dict_get (reread d state) k = Some v.
Proof.
  revert state. induction d as [|[k1 v1] d IH]; intros state Hd Hk; simpl.
  - destruct Hk as [[] | Hk]. exact Hk.
  - inversion Hd as [|? ? Hv1 Hd']; subst. simpl in *.
    apply (IH _ Hd').
    destruct (string_dec k (lstrip_with isspace k1)) as [-> | Hne].
    + right. apply dict_get_set_same.
    + destruct Hk as [[E | I] | Hs]; [congruence | left; exact I |].
      right. rewrite dict_get_set_other by exact Hne. exact Hs.
Qed.

(** ** Committing an offset *)

(** X2: For a table name that begins with no blank, [update_state] stores the
    value under that name and leaves the offset of every other table as it
    was. *)
Theorem update_state_frame (t : string) (v : Z) (w : World) (state : dict Z) :
  read_state_of (state_file w) = Ok state ->
  key_ok t = true ->
  let w' := snd (update_state t v w) in
  fst (update_state t v w) = Ok tt
  /\ read_state_of (state_file w') = Ok (dict_set state t v)
  /\ stored_offset w' t = Ok v
  /\ (forall t', t' <> t -> stored_offset w' t' = stored_offset w t').
Proof.
  intros Hr Hk w'. unfold w'. rewrite (update_state_run _ _ _ _ Hr). simpl.
  pose proof (read_after_set _ _ t v Hr (key_ok_field _ Hk)) as Hs.
  rewrite (key_ok_lstrip _ Hk) in Hs.
  unfold stored_offset. simpl state_file. rewrite Hs, Hr.
  repeat split.
  - unfold dict_get_default. rewrite dict_get_set_same. reflexivity.
  - intros t' Ht. unfold dict_get_default.
    rewrite dict_get_set_other by exact Ht. reflexivity.
Qed.

(** X7: No key of the state read begins with a blank, so a table name that
    does is always read as offset 0, whatever was committed for it. *)
Theorem blank_name_offset_is_zero (w : World) (t : string) (state : dict Z) :
  read_state_of (state_file w) = Ok state ->
  starts_with_space t = true ->
  dict_get state t = None /\ stored_offset w t = Ok 0%Z.
Proof.
  intros Hr Ht. destruct (read_state_keys _ _ Hr) as [_ Hok].
  assert (Hn : dict_get state t = None).
  { apply dict_get_none. intros I. rewrite Forall_forall in Hok.
    specialize (Hok _ I). unfold key_ok in Hok. rewrite Ht in Hok.
    rewrite andb_false_r in Hok. discriminate. }
  split; [exact Hn|].
  unfold stored_offset, dict_get_default. rewrite Hr, Hn. reflexivity.
Qed.

(** ** Forwarding *)


(** ** The orchestrator *)

Lemma ping_syslog_server_run (env : Env) (w : World) :
  exists reachable,
    (forall w0, fst (ping_syslog_server env w0) = Ok reachable)
    /\ quiet w (snd (ping_syslog_server env w)).
Proof.
  unfold ping_syslog_server. destruct (syslog_probe env) as [errno|msg].
  - exists (errno =? 0)%Z. split; [reflexivity | apply quiet_refl].
  - exists false. split; [reflexivity | repeat split].
Qed.

(** X13: when the database answers with rows, [fetch_data_from_db] returns
    them after exactly four database calls, connect, execute, fetch and
    close, in this order, and changes nothing else. *)
Lemma fetch_success_closes_connection (env : Env) (config : table_config)
    (w : World) (state : dict Z) (rows : list row) :
  read_state_of (state_file w) = Ok state ->
  sql_server env config = Rows rows ->
  fetch_data_from_db env config w
  = (Ok rows,
     set_db_log
       (db_log w ++
        [Connected (connection_string config (getpass env config));
         Executed ("SELECT * FROM " ++ table config); Fetched; Closed])%list w).
Proof.
  intros Hr Hs. unfold fetch_data_from_db, except_pyodbc.
  rewrite (fetch_body_run _ _ _ _ Hr), Hs. reflexivity.
Qed.

(** ** The claims *)

(** C2 (as stated, fails): with the state file absent, a run whose probe
    fails still creates the state file. *)
Lemma probe_failure_still_creates_state_file :
  let e := Sample.env Sample.one_job Sample.reply_3_2 (ConnectEx 111) in
  let w := Sample.world None in
  fst (ping_syslog_server e w) = Ok false
  /\ state_file w = None
  /\ state_file (snd (main e w)) = Some ("Orders:0" ++ nl).
Proof. vm_compute. repeat split. Qed.

(** C2 (amended): when the probe fails, no job is processed: the database
    is not called, nothing is sent and no handler is attached; a state
    file that exists is left as it is, and one that is absent is created
    by [create_state_file], which runs before the probe, with the line
    [table:0] of every job loaded. *)
Theorem probe_failure_skips_every_job (env : Env) (w : World) :
  fst (ping_syslog_server env w) = Ok false ->
  let w' := snd (main env w) in
  db_log w' = db_log w /\ syslog w' = syslog w
  /\ logger_handlers w' = logger_handlers w
  /\ (state_file w <> None -> state_file w' = state_file w)
  /\ (state_file w = None ->
      forall jobs, fst (load_table_configs env w) = Ok jobs ->
        state_file w' = Some (initial_state_text jobs)).
Proof.
  intros Hp w'. subst w'.
  destruct (ping_syslog_server_run env w) as [reachable [Hr _]].
  rewrite Hr in Hp. inversion Hp; subst reachable. clear Hp.
  remember (main env w) as r eqn:Er.
  unfold main, bind, load_server_configs, ret in Er.
  destruct (login_json env) as [configs|] eqn:Hj.
  2:{ subst r. simpl. do 3 (split; [reflexivity|]). split; [reflexivity|].
      intros _ jobs H. unfold load_table_configs, bind, load_server_configs in H.
      rewrite Hj in H. discriminate. }
  pose proof (load_table_configs_quiet env w) as Q.
  destruct (load_table_configs env w) as [[jobs|e] w1] eqn:El; simpl in Q;
    destruct Q as (Q1 & Q2 & Q3 & Q4).
  2:{ subst r. simpl. do 3 (split; [assumption|]). split; [intros _; assumption|].
      intros _ jobs' H. discriminate. }
  destruct (state_file w1) as [text|] eqn:Ef.
  - rewrite (create_state_file_present _ _ _ Ef) in Er.
    destruct (ping_syslog_server_run env w1) as [b [_ Q]].
    pose proof (Hr w1) as Hb.
    destruct (ping_syslog_server env w1) as [r1 w2]. simpl in Hb, Q. subst r1.
    destruct Q as (P1 & P2 & P3 & P4). subst r. simpl.
    split; [congruence|]. split; [congruence|]. split; [congruence|].
    split; [intros _; congruence|]. intros Hn. congruence.
  - rewrite (create_state_file_absent _ _ Ef) in Er.
    match type of Er with
    | context [ping_syslog_server env ?w2] =>
        destruct (ping_syslog_server_run env w2) as [b [_ Q]];
        pose proof (Hr w2) as Hb;
        destruct (ping_syslog_server env w2) as [r1 w3]
    end.
    simpl in Hb, Q. subst r1. destruct Q as (P1 & P2 & P3 & P4). subst r. simpl in *.
    split; [congruence|]. split; [congruence|]. split; [congruence|].
    split; [intros Hn; congruence|].
    intros _ jobs' H. inversion H; subst. exact P1.
Qed.

Lemma probe_failure_skips_every_job_witness :
  let e := Sample.env Sample.one_job Sample.reply_3_2 (ProbeRaises "timed out") in
  let w := Sample.world (Some ("Orders:5" ++ nl)) in
  fst (ping_syslog_server e w) = Ok false
  /\ db_log (snd (main e w)) = [] /\ syslog (snd (main e w)) = []
  /\ state_file (snd (main e w)) = Some ("Orders:5" ++ nl).
Proof.
  intros e w.
  assert (H : fst (ping_syslog_server e w) = Ok false) by reflexivity.
  destruct (probe_failure_skips_every_job e w H) as (A & B & _ & D & _).
  split; [exact H|]. split; [exact A|]. split; [exact B|].
  apply D. discriminate.
Defined.

(** C3 (as stated, fails): a state file that exists and has no entry for
    [Orders] gets none from [create_state_file]. *)
Lemma existing_state_file_is_not_completed :
  let w := Sample.world (Some ("Customers:5" ++ nl)) in
  let w' := snd (create_state_file [Sample.customers; Sample.orders] w) in
  read_state_of (state_file w') = Ok [("Customers", 5%Z)]
  /\ dict_get [("Customers", 5%Z)] (table Sample.orders) = None.
Proof. vm_compute. split; reflexivity. Qed.

(** C3 (amended): [create_state_file] writes the state file only when it
    does not exist, with one line [table:0] per job in job order, so that
    every job whose table name begins with no blank has an entry at 0;
    when the state file exists, whatever its entries, nothing changes.
    Running it again changes nothing. *)
Theorem create_state_file_only_when_absent (table_configs : list table_config)
    (w : World) :
  let r := create_state_file table_configs w in
  fst r = Ok tt
  /\ (state_file w = None ->
      state_file (snd r) = Some (initial_state_text table_configs)
      /\ (Forall (fun c => field_ok (table c) = true) table_configs ->
          exists state,
            read_state_of (state_file (snd r)) = Ok state
            /\ forall c, In c table_configs -> key_ok (table c) = true ->
                 dict_get state (table c) = Some 0%Z))
  /\ (state_file w <> None -> snd r = w)
  /\ create_state_file table_configs (snd r) = (Ok tt, snd r).
Proof.
  intros r. unfold r. destruct (state_file w) as [text|] eqn:Ef.
  - rewrite (create_state_file_present _ _ _ Ef). simpl.
    split; [reflexivity|]. split; [discriminate|]. split; [reflexivity|].
    apply (create_state_file_present _ _ _ Ef).
  - rewrite (create_state_file_absent _ _ Ef). simpl.
    split; [reflexivity|]. split; [|split; [congruence | reflexivity]].
    intros _. split; [reflexivity|]. intros Hok.
    set (d := map (fun c => (table c, 0%Z)) table_configs).
    assert (Hf : Forall (fun k => field_ok k = true) (keys d)).
    { unfold keys, d. rewrite map_map. simpl. apply Forall_map. exact Hok. }
    exists (reread d []). split.
    + rewrite initial_state_text_eq. fold d. unfold read_state_of.
      rewrite (file_lines_state_text _ Hf). apply read_state_lines_written, Hf.
    + intros c Hc Hk. apply reread_get.
      * unfold d. apply Forall_map. apply Forall_forall. reflexivity.
      * left. unfold d. rewrite map_map. simpl.
        apply in_map_iff. exists c. split; [apply key_ok_lstrip, Hk | exact Hc].
Qed.

Lemma create_state_file_only_when_absent_witness :
  let jobs := [Sample.customers; Sample.orders] in
  let w := Sample.world None in
  state_file w = None
  /\ Forall (fun c => field_ok (table c) = true) jobs
  /\ state_file (snd (create_state_file jobs w))
     = Some ("Customers:0" ++ nl ++ "Orders:0" ++ nl)
  /\ exists state,
       read_state_of (state_file (snd (create_state_file jobs w))) = Ok state
       /\ forall c, In c jobs -> key_ok (table c) = true ->
            dict_get state (table c) = Some 0%Z.
Proof.
  intros jobs w.
  assert (Hk : Forall (fun c => field_ok (table c) = true) jobs)
    by (repeat constructor).
  destruct (create_state_file_only_when_absent jobs w) as (_ & A & _).
  destruct (A eq_refl) as [B C].
  split; [reflexivity|]. split; [exact Hk|]. split; [exact B | exact (C Hk)].
Defined.

(** C5 (fails on the code): [update_state] is to make the table map to the
    value and leave every other entry.  For the table name [ Orders], with
    a blank in front, and the store [Orders:8], the store read back has no
    entry under that name and the entry of [Orders] has become 3. *)
Theorem update_state_blank_name_overwrites_other :
  let w := Sample.world (Some ("Orders:8" ++ nl)) in
  let w' := snd (update_state " Orders" 3 w) in
  read_state_of (state_file w) = Ok [("Orders", 8%Z)]
  /\ state_file w' = Some ("Orders:8" ++ nl ++ " Orders:3" ++ nl)
  /\ read_state_of (state_file w') = Ok [("Orders", 3%Z)].
Proof. vm_compute. repeat split. Qed.

(** C6 (fails on the code): the connection is to be released also when
    the query raises.  When [cursor.execute] raises [pyodbc.Error] the
    function prints the error and returns the empty list, and the only
    database call it has made is the connect: [connection.close()] stands
    on the path without error only. *)
Theorem fetch_error_leaves_connection_open (env : Env) (config : table_config)
    (w : World) (state : dict Z) (msg : string) :
  read_state_of (state_file w) = Ok state ->
  sql_server env config = ExecuteError msg ->
  let r := fetch_data_from_db env config w in
  fst r = Ok []
  /\ db_log (snd r)
     = (db_log w ++ [Connected (connection_string config (getpass env config))])%list.
Proof.
  intros Hr Hs r. unfold r, fetch_data_from_db, except_pyodbc.
  rewrite (fetch_body_run _ _ _ _ Hr), Hs. split; reflexivity.
Qed.

Lemma fetch_error_leaves_connection_open_witness :
  let e := Sample.env Sample.one_job (fun _ => ExecuteError "Invalid object name")
                      (ConnectEx 0) in
  let w := Sample.world (Some ("Orders:5" ++ nl)) in
  read_state_of (state_file w) = Ok [("Orders", 5%Z)]
  /\ sql_server e Sample.orders = ExecuteError "Invalid object name"
  /\ fst (fetch_data_from_db e Sample.orders w) = Ok []
  /\ db_log (snd (fetch_data_from_db e Sample.orders w))
     = [Connected (connection_string Sample.orders "secret")].
Proof.
  intros e w.
  assert (Hr : read_state_of (state_file w) = Ok [("Orders", 5%Z)]) by reflexivity.
  assert (Hs : sql_server e Sample.orders = ExecuteError "Invalid object name")
    by reflexivity.
  split; [exact Hr|]. split; [exact Hs|].
  exact (fetch_error_leaves_connection_open e Sample.orders w _ _ Hr Hs).
Defined.

(** C7: when the [try] body of [fetch_data_from_db] raises [pyodbc.Error]
    (connect, cursor, query or fetch), the function returns the empty
    list; the job then forwards nothing and commits nothing (state file,
    messages sent and logger are as before), and the loop of [main] goes
    on with the jobs that follow. *)
Theorem fetch_error_skips_job (env : Env) (config : table_config)
    (rest : list table_config) (w : World) (msg : string) :
  fst (fetch_body env config w) = Raise (PyodbcError msg) ->
  let w' := snd (process_job env config w) in
  fst (fetch_data_from_db env config w) = Ok []
  /\ fst (process_job env config w) = Ok tt
  /\ state_file w' = state_file w
  /\ syslog w' = syslog w
  /\ logger_handlers w' = logger_handlers w
  /\ for_each (config :: rest) (process_job env) w
     = for_each rest (process_job env) w'.
Proof.
  intros H w'. subst w'.
  pose proof (fetch_body_frame env config w) as (F1 & F2 & F3 & _).
  assert (E : fetch_data_from_db env config w
              = (Ok [], set_console
                          (console (snd (fetch_body env config w))
                           ++ [("Error fetching data: " ++ msg)%string])%list
                          (snd (fetch_body env config w)))).
  { unfold fetch_data_from_db, except_pyodbc.
    destruct (fetch_body env config w) as [[rows|e] w1]; simpl in H;
      [discriminate|]. inversion H; subst. reflexivity. }
  assert (P : process_job env config w
              = (Ok tt, snd (fetch_data_from_db env config w))).
  { unfold process_job, bind. rewrite E. reflexivity. }
  split; [rewrite E; reflexivity|].
  split; [rewrite P; reflexivity|].
  split; [rewrite P, E; exact F1|].
  split; [rewrite P, E; exact F3|].
  split; [rewrite P, E; exact F2|].
  simpl. unfold bind at 1. rewrite P. reflexivity.
Qed.

Lemma fetch_error_skips_job_witness :
  let e := Sample.env Sample.two_jobs
             (fun c => if String.eqb (table c) "Customers"
                       then ConnectError "Login failed" else Rows (Sample.rows_of 6))
             (ConnectEx 0) in
  let w := Sample.world (Some ("Customers:0" ++ nl ++ "Orders:5" ++ nl)) in
  fst (fetch_body e Sample.customers w) = Raise (PyodbcError "Login failed")
  /\ for_each [Sample.customers; Sample.orders] (process_job e) w
     = for_each [Sample.orders] (process_job e)
                (snd (process_job e Sample.customers w))
  /\ state_file (snd (process_job e Sample.customers w)) = state_file w.
Proof.
  intros e w.
  assert (H : fst (fetch_body e Sample.customers w)
              = Raise (PyodbcError "Login failed")) by reflexivity.
  destruct (fetch_error_skips_job e Sample.customers [Sample.orders] w _ H)
    as (_ & _ & A & _ & _ & B).
  split; [exact H|]. split; [exact B | exact A].
Defined.

(** C9: [load_table_configs] returns the jobs of the lines of [Tables.txt]
    in line order, one job per line whose [server_ip] is configured and
    none for a line whose [server_ip] is not: the job list is the one of
    the file without that line, and the state file [create_state_file]
    writes has exactly one line [table:0] per job, in the same order. *)
Theorem load_table_configs_resolves (env : Env) (configs : list server_config)
    (text : string) (w : World) :
  login_json env = Some configs ->
  tables_txt env = Some text ->
  Forall (fun line => length (split colon (strip line)) = 3%nat) (file_lines text) ->
  let server_dict := server_dict_of configs in
  let jobs := flat_map (jobs_of_line server_dict) (file_lines text) in
  fst (load_table_configs env w) = Ok jobs
  /\ (forall before line after,
        file_lines text = (before ++ line :: after)%list ->
        unresolved server_dict line ->
        jobs = flat_map (jobs_of_line server_dict) (before ++ after)%list)
  /\ (forall w0, state_file w0 = None ->
        option_map file_lines (state_file (snd (create_state_file jobs w0)))
        = Some (map (fun c => table c ++ ":0" ++ nl) jobs)).
Proof.
  intros Hj Ht H3 server_dict jobs. split; [|split].
  - unfold load_table_configs, bind, load_server_configs. rewrite Hj, Ht.
    unfold ret at 1.
    destruct (load_table_lines_run server_dict (file_lines text) [] w H3)
      as [w' [E _]].
    fold server_dict. rewrite E. reflexivity.
  - intros before line after Hl (ip & db & t & Hs & Hd).
    unfold jobs. rewrite Hl, !flat_map_app. simpl.
    unfold jobs_of_line at 2. rewrite Hs, Hd. reflexivity.
  - intros w0 Hw. rewrite (create_state_file_absent _ _ Hw). simpl.
    rewrite initial_state_text_eq. f_equal.
    rewrite file_lines_state_text.
    + rewrite map_map. reflexivity.
    + unfold keys. rewrite map_map. simpl. apply Forall_map.
      unfold jobs. apply Forall_flat_map.
      eapply Forall_impl; [|apply file_lines_strip_no_newline].
      intros line Hn. apply jobs_of_line_field, Hn.
Qed.

Lemma load_table_configs_resolves_witness :
  let e := Sample.env Sample.three_lines Sample.reply_1_6 (ConnectEx 0) in
  let w := Sample.world None in
  login_json e
  = Some [mk_server_config "10.0.0.1" "svc"; mk_server_config "10.0.0.2" "svc"]
  /\ tables_txt e = Some Sample.three_lines
  /\ Forall (fun line => length (split colon (strip line)) = 3%nat)
            (file_lines Sample.three_lines)
  /\ fst (load_table_configs e w) = Ok [Sample.customers; Sample.orders].
Proof.
  intros e w.
  assert (H3 : Forall (fun line => length (split colon (strip line)) = 3%nat)
                      (file_lines Sample.three_lines))
    by (repeat constructor).
  split; [reflexivity|]. split; [reflexivity|]. split; [exact H3|].
  exact (proj1 (load_table_configs_resolves e _ _ w eq_refl eq_refl H3)).
Defined.

(** ** Further properties of the state file *)

Lemma read_state_lines_app (l1 l2 : list string) (state : dict Z) :
  read_state_lines (l1 ++ l2)%list state
  = match read_state_lines l1 state with
    | Ok s => read_state_lines l2 s
    | Raise e => Raise e
    end.
Proof.
  revert state. induction l1 as [|line rest IH]; intros state; simpl; [reflexivity|].
  destruct (split colon (strip line)) as [|k [|n [|x xs]]]; try apply IH.
  destruct (int n); [apply IH | reflexivity].
Qed.

Lemma read_state_lines_raise (lines : list string) (state : dict Z) (e : exn) :
  read_state_lines lines state = Raise e -> e = ValueError.
Proof.
  revert state. induction lines as [|line rest IH]; intros state; simpl.
  - discriminate.
  - destruct (split colon (strip line)) as [|k [|n [|x xs]]]; try apply IH.
    destruct (int n); [apply IH | intros H; inversion H; reflexivity].
Qed.

Lemma read_state_of_raise (file : option string) (e : exn) :
  read_state_of file = Raise e -> e = ValueError.
Proof.
  destruct file as [text|]; unfold read_state_of; [|discriminate].
  apply read_state_lines_raise.
Qed.

(** A key survives the rest of the loop of [read_state] with its value when
    no later line names it. *)
Lemma read_state_lines_keeps (lines : list string) (state final : dict Z)
    (k : string) (v : Z) :
  (forall l k' n', In l lines -> split colon (strip l) = [k'; n'] -> k' <> k) ->
  dict_get state k = Some v ->
  read_state_lines lines state = Ok final ->
  dict_get final k = Some v.
Proof.
  revert state. induction lines as [|line rest IH]; intros state Hk Hs Hr; simpl in Hr.
  - inversion Hr; subst. exact Hs.
  - assert (Hrest : forall l k' n', In l rest ->
                      split colon (strip l) = [k'; n'] -> k' <> k)
      by (intros l k' n' I; apply Hk; right; exact I).
    destruct (split colon (strip line)) as [|k1 [|n1 [|x xs]]] eqn:E;
      try (apply (IH _ Hrest Hs Hr)).
    destruct (int n1) as [v1|]; [|discriminate].
    apply (IH _ Hrest) in Hr; [exact Hr|].
    rewrite dict_get_set_other; [exact Hs|].
    intros Heq. apply (Hk line k1 n1 (or_introl eq_refl) E). symmetry. exact Heq.
Qed.

(** X1: Rewriting the state that was read gives a file that reads as the same
    state: whatever the file held (blank lines, lines with another number
    of fields, several lines for one table, blanks around the fields), the
    text [update_state] writes for the state read is read back as that
    state. *)
Theorem state_rewrite_round_trip (file : option string) (state : dict Z) :
  read_state_of file = Ok state ->
  read_state_of (Some (state_text state)) = Ok state.
Proof.
  intros H. destruct (read_state_keys _ _ H) as [Hnd Hok].
  apply read_written; assumption.
Qed.

Lemma state_rewrite_round_trip_witness :
  let text := "Orders : 5" ++ nl ++ nl ++ "a:b:c" ++ nl ++ "  Customers:+2 " ++ nl
              ++ "Orders :1_0" ++ nl in
  read_state_of (Some text) = Ok [("Orders ", 10%Z); ("Customers", 2%Z)]
  /\ state_text [("Orders ", 10%Z); ("Customers", 2%Z)]
     = "Orders :10" ++ nl ++ "Customers:2" ++ nl
  /\ read_state_of (Some (state_text [("Orders ", 10%Z); ("Customers", 2%Z)]))
     = Ok [("Orders ", 10%Z); ("Customers", 2%Z)].
Proof.
  intros text.
  assert (H : read_state_of (Some text) = Ok [("Orders ", 10%Z); ("Customers", 2%Z)])
    by reflexivity.
  split; [exact H|]. split; [reflexivity|].
  exact (state_rewrite_round_trip _ _ H).
Defined.

(** X3: What is read back after [update_state]: the state read before with the
    value set under the table name without the blanks in front of it.  The
    table name is a field (no colon, no line break), as the names
    [load_table_configs] yields are. *)
Theorem update_state_read_back (t : string) (v : Z) (w : World) (state : dict Z) :
  read_state_of (state_file w) = Ok state ->
  field_ok t = true ->
  fst (update_state t v w) = Ok tt
  /\ read_state_of (state_file (snd (update_state t v w)))
     = Ok (dict_set state (lstrip_with isspace t) v).
Proof.
  intros Hr Ht. rewrite (update_state_run _ _ _ _ Hr). simpl.
  split; [reflexivity|]. apply (read_after_set _ _ _ _ Hr Ht).
Qed.

Lemma update_state_read_back_witness :
  let w := Sample.world (Some ("Customers:4" ++ nl ++ "Orders:8" ++ nl)) in
  read_state_of (state_file w) = Ok [("Customers", 4%Z); ("Orders", 8%Z)]
  /\ field_ok "   Orders" = true
  /\ read_state_of (state_file (snd (update_state "   Orders" 9 w)))
     = Ok [("Customers", 4%Z); ("Orders", 9%Z)].
Proof.
  intros w.
  assert (H : read_state_of (state_file w) = Ok [("Customers", 4%Z); ("Orders", 8%Z)])
    by reflexivity.
  split; [exact H|]. split; [reflexivity|].
  exact (proj2 (update_state_read_back "   Orders" 9 w _ H eq_refl)).
Defined.

(** X5: [read_state] passes over a line that has not exactly two fields: an
    empty line, a line without colon, a line with two colons. *)
Theorem read_state_ignores_other_lines (before after : list string)
    (line : string) (state : dict Z) :
  length (split colon (strip line)) <> 2%nat ->
  read_state_lines (before ++ line :: after)%list state
  = read_state_lines (before ++ after)%list state.
Proof.
  intros H. rewrite !read_state_lines_app.
  destruct (read_state_lines before state) as [s|e]; [|reflexivity].
  simpl. destruct (split colon (strip line)) as [|k [|n [|x xs]]];
    try reflexivity.
  exfalso. apply H. reflexivity.
Qed.

Lemma read_state_ignores_other_lines_witness :
  length (split colon (strip ("10.0.0.1:SalesDB:Orders" ++ nl))) <> 2%nat
  /\ read_state_lines ["Customers:4" ++ nl; "10.0.0.1:SalesDB:Orders" ++ nl;
                       "Orders:8" ++ nl] []
     = read_state_lines ["Customers:4" ++ nl; "Orders:8" ++ nl] [].
Proof.
  assert (H : length (split colon (strip ("10.0.0.1:SalesDB:Orders" ++ nl))) <> 2%nat)
    by discriminate.
  split; [exact H|].
  exact (read_state_ignores_other_lines ["Customers:4" ++ nl] ["Orders:8" ++ nl]
           _ [] H).
Defined.

(** X6: When several lines of the state file name one table, the last of them
    gives the offset. *)
Theorem read_state_last_line_wins (before after : list string) (line : string)
    (state final : dict Z) (k n : string) (v : Z) :
  split colon (strip line) = [k; n] ->
  int n = Some v ->
  (forall l k' n', In l after -> split colon (strip l) = [k'; n'] -> k' <> k) ->
  read_state_lines (before ++ line :: after)%list state = Ok final ->
  dict_get final k = Some v.
Proof.
  intros Hs Hi Hafter Hr. rewrite read_state_lines_app in Hr.
  destruct (read_state_lines before state) as [s|e]; [|discriminate].
  simpl in Hr. rewrite Hs, Hi in Hr.
  apply (read_state_lines_keeps after _ _ k v Hafter (dict_get_set_same _ _ _) Hr).
Qed.

Lemma read_state_last_line_wins_witness :
  let lines := ["Orders:3" ++ nl; "Customers:1" ++ nl; "Orders:7" ++ nl;
                "Customers:2" ++ nl] in
  read_state_lines lines [] = Ok [("Orders", 7%Z); ("Customers", 2%Z)]
  /\ dict_get [("Orders", 7%Z); ("Customers", 2%Z)] "Orders" = Some 7%Z.
Proof.
  intros lines.
  assert (H : read_state_lines lines [] = Ok [("Orders", 7%Z); ("Customers", 2%Z)])
    by reflexivity.
  split; [exact H|].
  apply (read_state_last_line_wins ["Orders:3" ++ nl; "Customers:1" ++ nl]
           ["Customers:2" ++ nl] ("Orders:7" ++ nl) [] _ "Orders" "7" 7%Z
           eq_refl eq_refl); [|exact H].
  intros l k' n' [<- | []] E. inversion E. discriminate.
Defined.

(** X4: [update_state] rewrites the whole file: afterwards it holds exactly one
    line [table:offset] per table of the state, in the order the tables
    were first met, and nothing of the lines [read_state] passed over. *)
Theorem update_state_rewrites_file (t : string) (v : Z) (w : World) (state : dict Z) :
  read_state_of (state_file w) = Ok state ->
  field_ok t = true ->
  exists text,
    state_file (snd (update_state t v w)) = Some text
    /\ file_lines text = map state_line (dict_set state t v)
    /\ NoDup (keys (dict_set state t v))
    /\ dict_get (dict_set state t v) t = Some v.
Proof.
  intros Hr Ht. destruct (read_state_keys _ _ Hr) as [Hnd Hok].
  rewrite (update_state_run _ _ _ _ Hr). simpl. eexists. split; [reflexivity|].
  split; [|split; [apply keys_dict_set_nodup, Hnd | apply dict_get_set_same]].
  apply file_lines_state_text. apply keys_dict_set_forall; [|exact Ht].
  eapply Forall_impl; [|exact Hok]. apply key_ok_field.
Qed.

Lemma update_state_rewrites_file_witness :
  let w := Sample.world (Some ("Orders:3" ++ nl ++ nl ++ "note" ++ nl
                               ++ "Customers:1" ++ nl ++ "Orders:5" ++ nl)) in
  read_state_of (state_file w) = Ok [("Orders", 5%Z); ("Customers", 1%Z)]
  /\ field_ok "Customers" = true
  /\ exists text,
       state_file (snd (update_state "Customers" 6 w)) = Some text
       /\ file_lines text = ["Orders:5" ++ nl; "Customers:6" ++ nl].
Proof.
  intros w.
  assert (H : read_state_of (state_file w) = Ok [("Orders", 5%Z); ("Customers", 1%Z)])
    by reflexivity.
  split; [exact H|]. split; [reflexivity|].
  destruct (update_state_rewrites_file "Customers" 6 w _ H eq_refl)
    as [text [E [L _]]].
  exists text. split; [exact E | exact L].
Defined.

(** X8: A line of the state file with two fields whose second is no integer
    makes [read_state] raise [ValueError].  Nothing catches it:
    [fetch_data_from_db] catches [pyodbc.Error] only, so the first job
    ends the run, before any database call; [update_state] leaves the
    file as it is. *)
Theorem malformed_state_file_aborts_run (env : Env) (config : table_config)
    (rest : list table_config) (t : string) (v : Z) (w : World) (e : exn) :
  read_state_of (state_file w) = Raise e ->
  e = ValueError
  /\ fetch_data_from_db env config w = (Raise ValueError, w)
  /\ for_each (config :: rest) (process_job env) w = (Raise ValueError, w)
  /\ update_state t v w = (Raise ValueError, w).
Proof.
  intros Hr. pose proof (read_state_of_raise _ _ Hr) as ->.
  assert (F : fetch_data_from_db env config w = (Raise ValueError, w)).
  { unfold fetch_data_from_db, except_pyodbc.
    rewrite (fetch_body_raises _ _ _ _ Hr). reflexivity. }
  split; [reflexivity|]. split; [exact F|]. split.
  - simpl. unfold bind at 1. unfold process_job, bind at 1. rewrite F. reflexivity.
  - unfold update_state, bind, read_state. rewrite Hr. reflexivity.
Qed.

Lemma malformed_state_file_aborts_run_witness :
  let e := Sample.env Sample.two_jobs Sample.reply_1_6 (ConnectEx 0) in
  let w := Sample.world (Some ("Customers:4" ++ nl ++ "Orders:five" ++ nl)) in
  read_state_of (state_file w) = Raise ValueError
  /\ for_each [Sample.customers; Sample.orders] (process_job e) w
     = (Raise ValueError, w).
Proof.
  intros e w.
  assert (H : read_state_of (state_file w) = Raise ValueError) by reflexivity.
  split; [exact H|].
  exact (proj1 (proj2 (proj2
    (malformed_state_file_aborts_run e Sample.customers [Sample.orders] "" 0 w _ H)))).
Defined.

(** ** Further properties of the configuration *)

Lemma server_dict_fold_keeps (configs : list server_config)
    (d : dict server_config) (ip : string) (c : server_config) :
  (forall c', In c' configs -> srv_server_ip c' <> ip) ->
  dict_get d ip = Some c ->
  dict_get (fold_left (fun d config => dict_set d (srv_server_ip config) config)
                      configs d) ip = Some c.
Proof.
  revert d. induction configs as [|c1 rest IH]; intros d Hne Hd; simpl; [exact Hd|].
  apply IH.
  - intros c' I. apply Hne. right. exact I.
  - rewrite dict_get_set_other; [exact Hd|].
    intros E. apply (Hne c1 (or_introl eq_refl)). symmetry. exact E.
Qed.

Lemma server_dict_fold_none (configs : list server_config)
    (d : dict server_config) (ip : string) :
  dict_get (fold_left (fun d config => dict_set d (srv_server_ip config) config)
                      configs d) ip = None
  <-> dict_get d ip = None /\ forall c, In c configs -> srv_server_ip c <> ip.
Proof.
  revert d. induction configs as [|c1 rest IH]; intros d; simpl.
  - split; [intros H; split; [exact H | intros c []] | tauto].
  - rewrite IH. split.
    + intros [Hd Hrest].
      destruct (string_dec (srv_server_ip c1) ip) as [E | N].
      * rewrite <- E, dict_get_set_same in Hd. discriminate.
      * rewrite dict_get_set_other in Hd by congruence.
        split; [exact Hd|]. intros c [<- | I]; [exact N | apply Hrest, I].
    + intros [Hd Hall]. split.
      * rewrite dict_get_set_other; [exact Hd|].
        intros E. apply (Hall c1 (or_introl eq_refl)). symmetry. exact E.
      * intros c I. apply Hall. right. exact I.
Qed.

(** X9: When [Login.json] lists a [server_ip] more than once, the last object
    with it is the one every binding line of that server gets its [user]
    from. *)
Theorem server_dict_last_entry_wins (before after : list server_config)
    (c : server_config) (line db_name table_name : string) :
  (forall c', In c' after -> srv_server_ip c' <> srv_server_ip c) ->
  split colon (strip line) = [srv_server_ip c; db_name; table_name] ->
  dict_get (server_dict_of (before ++ c :: after)%list) (srv_server_ip c) = Some c
  /\ jobs_of_line (server_dict_of (before ++ c :: after)%list) line
     = [mk_table_config (srv_server_ip c) (srv_user c) db_name table_name].
Proof.
  intros Hne Hs.
  assert (G : dict_get (server_dict_of (before ++ c :: after)%list)
                       (srv_server_ip c) = Some c).
  { unfold server_dict_of. rewrite fold_left_app. simpl.
    apply server_dict_fold_keeps; [exact Hne | apply dict_get_set_same]. }
  split; [exact G|]. unfold jobs_of_line. rewrite Hs, G. reflexivity.
Qed.

Lemma server_dict_last_entry_wins_witness :
  let old := mk_server_config "10.0.0.1" "sa" in
  let new := mk_server_config "10.0.0.1" "svc" in
  let other := mk_server_config "10.0.0.2" "reader" in
  (forall c', In c' [other] -> srv_server_ip c' <> srv_server_ip new)
  /\ jobs_of_line (server_dict_of [old; new; other]) ("10.0.0.1:SalesDB:Orders" ++ nl)
     = [Sample.orders].
Proof.
  intros old new other.
  assert (H : forall c', In c' [other] -> srv_server_ip c' <> srv_server_ip new)
    by (intros c' [<- | []]; discriminate).
  split; [exact H|].
  exact (proj2 (server_dict_last_entry_wins [old] [other] new
                  ("10.0.0.1:SalesDB:Orders" ++ nl) "SalesDB" "Orders" H eq_refl)).
Defined.

(** X10: A binding line of three fields yields a job exactly when its first
    field, as written, is the [server_ip] of an object of [Login.json]. *)
Theorem binding_line_resolves_iff_configured (configs : list server_config)
    (line server_ip db_name table_name : string) :
  split colon (strip line) = [server_ip; db_name; table_name] ->
  (jobs_of_line (server_dict_of configs) line = []
   <-> forall c, In c configs -> srv_server_ip c <> server_ip)
  /\ (unresolved (server_dict_of configs) line
      <-> forall c, In c configs -> srv_server_ip c <> server_ip).
Proof.
  intros Hs.
  assert (N : dict_get (server_dict_of configs) server_ip = None
              <-> forall c, In c configs -> srv_server_ip c <> server_ip).
  { unfold server_dict_of. rewrite server_dict_fold_none. simpl. tauto. }
  split.
  - rewrite <- N. unfold jobs_of_line. rewrite Hs.
    destruct (dict_get (server_dict_of configs) server_ip);
      split; intros H; try reflexivity; discriminate.
  - rewrite <- N. unfold unresolved. split.
    + intros (ip & db & t & E & H). rewrite Hs in E. inversion E; subst. exact H.
    + intros H. exists server_ip, db_name, table_name. split; assumption.
Qed.

Lemma binding_line_resolves_iff_configured_witness :
  let configs := [mk_server_config "10.0.0.1" "svc"] in
  split colon (strip (" 10.0.0.1 :SalesDB:Orders" ++ nl))
  = ["10.0.0.1 "; "SalesDB"; "Orders"]
  /\ jobs_of_line (server_dict_of configs) (" 10.0.0.1 :SalesDB:Orders" ++ nl) = [].
Proof.
  intros configs.
  assert (H : split colon (strip (" 10.0.0.1 :SalesDB:Orders" ++ nl))
              = ["10.0.0.1 "; "SalesDB"; "Orders"]) by reflexivity.
  split; [exact H|].
  apply (proj1 (binding_line_resolves_iff_configured configs _ _ _ _ H)).
  intros c [<- | []]. discriminate.
Defined.

Lemma load_table_lines_bad_line (server_dict : dict server_config)
    (lines : list string) (line : string) (table_configs : list table_config)
    (w : World) :
  In line lines ->
  length (split colon (strip line)) <> 3%nat ->
  fst (load_table_lines server_dict lines table_configs w) = Raise ValueError.
Proof.
  intros Hin Hbad. revert table_configs w.
  induction lines as [|l rest IH]; intros acc w; [destruct Hin|].
  simpl. destruct Hin as [-> | Hin].
  - destruct (split colon (strip line)) as [|a [|b [|c [|x xs]]]];
      try reflexivity.
    exfalso. apply Hbad. reflexivity.
  - destruct (split colon (strip l)) as [|a [|b [|c [|x xs]]]]; try reflexivity.
    destruct (dict_get server_dict a); [apply (IH Hin)|].
    unfold bind. simpl. apply (IH Hin).
Qed.

(** X11: A line of [Tables.txt] that has not three fields, an empty line at the
    end of the file for one, makes [load_table_configs] raise
    [ValueError] whatever the other lines are: [main] ends there, before
    the state file is created, the endpoint probed or any table read. *)
Theorem malformed_binding_line_aborts_run (env : Env)
    (configs : list server_config) (text line : string) (w : World) :
  login_json env = Some configs ->
  tables_txt env = Some text ->
  In line (file_lines text) ->
  length (split colon (strip line)) <> 3%nat ->
  fst (load_table_configs env w) = Raise ValueError
  /\ fst (main env w) = Raise ValueError
  /\ quiet w (snd (main env w)).
Proof.
  intros Hj Ht Hin Hbad.
  assert (L : fst (load_table_configs env w) = Raise ValueError).
  { unfold load_table_configs, bind, load_server_configs. rewrite Hj, Ht.
    unfold ret at 1. apply (load_table_lines_bad_line _ _ _ _ _ Hin Hbad). }
  split; [exact L|].
  assert (E : main env w = (Raise ValueError, snd (load_table_configs env w))).
  { unfold main, bind, load_server_configs, ret. rewrite Hj.
    destruct (load_table_configs env w) as [[jobs|e] w1]; simpl in L;
      [discriminate|].
    inversion L; subst. reflexivity. }
  rewrite E. split; [reflexivity | apply load_table_configs_quiet].
Qed.

Lemma malformed_binding_line_aborts_run_witness :
  let text := "10.0.0.1:SalesDB:Orders" ++ nl ++ nl in
  let e := Sample.env text Sample.reply_1_6 (ConnectEx 0) in
  let w := Sample.world None in
  In nl (file_lines text)
  /\ length (split colon (strip nl)) <> 3%nat
  /\ fst (main e w) = Raise ValueError
  /\ state_file (snd (main e w)) = None.
Proof.
  intros text e w.
  assert (Hin : In nl (file_lines text)) by (right; left; reflexivity).
  assert (Hbad : length (split colon (strip nl)) <> 3%nat) by discriminate.
  destruct (malformed_binding_line_aborts_run e _ text nl w eq_refl eq_refl Hin Hbad)
    as (_ & A & B & _).
  split; [exact Hin|]. split; [exact Hbad|]. split; [exact A | exact B].
Defined.

(** X12: When [Login.json] or [Tables.txt] cannot be read, [main] raises at
    once and has done nothing: no state file, no line printed. *)
Theorem unreadable_configuration_aborts_run (env : Env) (w : World) :
  login_json env = None \/ tables_txt env = None ->
  main env w = (Raise OSError, w).
Proof.
  intros H. unfold main, bind, load_server_configs, load_table_configs, bind,
    load_server_configs, ret, raise.
  destruct (login_json env); [|reflexivity].
  destruct H as [H | H]; [discriminate|]. rewrite H. reflexivity.
Qed.

Lemma unreadable_configuration_aborts_run_witness :
  let e := mk_env (Some [mk_server_config "10.0.0.1" "svc"]) None
                  (fun _ => "secret") Sample.reply_1_6 (ConnectEx 0)
                  (fun _ => true) "host" "192.0.2.7" in
  tables_txt e = None /\ main e (Sample.world None) = (Raise OSError, Sample.world None).
Proof.
  intros e. split; [reflexivity|].
  exact (unreadable_configuration_aborts_run e (Sample.world None)
           (or_intror eq_refl)).
Defined.

(** ** Further properties of fetching *)

Lemma fetch_data_from_db_frame (env : Env) (config : table_config) (w : World) :
  let r := fetch_data_from_db env config w in
  state_file (snd r) = state_file w /\ syslog (snd r) = syslog w
  /\ logger_handlers (snd r) = logger_handlers w.
Proof.
  unfold fetch_data_from_db, except_pyodbc.
  destruct (read_state_of (state_file w)) as [state|e] eqn:Hr.
  - rewrite (fetch_body_run _ _ _ _ Hr).
    destruct (sql_server env config); simpl; repeat split.
  - rewrite (fetch_body_raises _ _ _ _ Hr).
    rewrite (read_state_of_raise _ _ Hr). simpl. repeat split.
Qed.

(** X14: [fetch_data_from_db] lets no [pyodbc.Error] out, returns rows only when
    the database gave them, and never touches the state file, the logger
    or what was sent. *)
Theorem fetch_data_from_db_contains_db_errors (env : Env) (config : table_config)
    (w : World) :
  let r := fetch_data_from_db env config w in
  (forall msg, fst r <> Raise (PyodbcError msg))
  /\ (forall rows, fst r = Ok rows -> rows <> [] -> sql_server env config = Rows rows)
  /\ state_file (snd r) = state_file w /\ syslog (snd r) = syslog w
  /\ logger_handlers (snd r) = logger_handlers w.
Proof.
  intros r. split; [|split; [|apply fetch_data_from_db_frame]];
    unfold r, fetch_data_from_db, except_pyodbc;
    destruct (read_state_of (state_file w)) as [state|e] eqn:Hr.
  - rewrite (fetch_body_run _ _ _ _ Hr).
    destruct (sql_server env config); simpl; intros m; discriminate.
  - rewrite (fetch_body_raises _ _ _ _ Hr), (read_state_of_raise _ _ Hr).
    simpl. intros m. discriminate.
  - rewrite (fetch_body_run _ _ _ _ Hr).
    destruct (sql_server env config); simpl; intros rows' E Hne;
      inversion E; subst; try contradiction; reflexivity.
  - rewrite (fetch_body_raises _ _ _ _ Hr), (read_state_of_raise _ _ Hr).
    simpl. intros rows' E. discriminate.
Qed.

Lemma fetch_success_closes_connection_witness :
  let e := Sample.env Sample.two_jobs Sample.reply_1_6 (ConnectEx 0) in
  let w := Sample.world (Some ("Customers:0" ++ nl)) in
  read_state_of (state_file w) = Ok [("Customers", 0%Z)]
  /\ sql_server e Sample.customers = Rows (Sample.rows_of 1)
  /\ fst (fetch_data_from_db e Sample.customers w) = Ok [[VInt 1]]
  /\ db_log (snd (fetch_data_from_db e Sample.customers w))
     = [Connected (connection_string Sample.customers "secret");
        Executed "SELECT * FROM Customers"; Fetched; Closed].
Proof.
  intros e w.
  assert (Hr : read_state_of (state_file w) = Ok [("Customers", 0%Z)]) by reflexivity.
  assert (Hs : sql_server e Sample.customers = Rows (Sample.rows_of 1)) by reflexivity.
  split; [exact Hr|]. split; [exact Hs|].
  rewrite (fetch_success_closes_connection e Sample.customers w _ _ Hr Hs).
  split; reflexivity.
Defined.

(** ** Further properties of forwarding *)

Lemma update_state_frame_witness :
  let w := Sample.world (Some ("Customers:4" ++ nl ++ "Orders:8" ++ nl)) in
  read_state_of (state_file w) = Ok [("Customers", 4%Z); ("Orders", 8%Z)]
  /\ key_ok "Orders" = true
  /\ stored_offset (snd (update_state "Orders" 9 w)) "Orders" = Ok 9%Z
  /\ stored_offset (snd (update_state "Orders" 9 w)) "Customers" = Ok 4%Z.
Proof.
  intros w.
  assert (H : read_state_of (state_file w) = Ok [("Customers", 4%Z); ("Orders", 8%Z)])
    by reflexivity.
  destruct (update_state_frame "Orders" 9 w _ H eq_refl) as (_ & _ & A & B).
  split; [exact H|]. split; [reflexivity|]. split; [exact A|].
  rewrite (B "Customers"); [reflexivity | discriminate].
Defined.

Lemma blank_name_offset_is_zero_witness :
  let w := Sample.world (Some ("Orders:8" ++ nl ++ " Orders:5" ++ nl)) in
  read_state_of (state_file w) = Ok [("Orders", 5%Z)]
  /\ starts_with_space " Orders" = true
  /\ stored_offset w " Orders" = Ok 0%Z.
Proof.
  intros w.
  assert (H : read_state_of (state_file w) = Ok [("Orders", 5%Z)]) by reflexivity.
  split; [exact H|]. split; [reflexivity|].
  exact (proj2 (blank_name_offset_is_zero w " Orders" _ H eq_refl)).
Defined.

(** X22: the construction of the handler raises [TypeError], so the first
    job whose table has rows ends the run: its rows were fetched and the
    connection closed, nothing is sent or committed, and the jobs after
    it are not read. *)
Theorem handler_type_error_aborts_run (env : Env) (config : table_config)
    (rest : list table_config) (w : World) (state : dict Z) (rows : list row) :
  read_state_of (state_file w) = Ok state ->
  sql_server env config = Rows rows ->
  rows <> [] ->
  let r := for_each (config :: rest) (process_job env) w in
  fst r = Raise TypeError
  /\ state_file (snd r) = state_file w /\ syslog (snd r) = syslog w
  /\ db_log (snd r)
     = (db_log w ++
        [Connected (connection_string config (getpass env config));
         Executed ("SELECT * FROM " ++ table config); Fetched; Closed])%list.
Proof.
  intros Hr Hs Hne r.
  assert (E : r = (Raise TypeError,
                   set_db_log
                     (db_log w ++
                      [Connected (connection_string config (getpass env config));
                       Executed ("SELECT * FROM " ++ table config); Fetched; Closed])%list
                     w)).
  { unfold r. simpl. unfold bind at 1.
    unfold process_job, bind at 1, fetch_data_from_db, except_pyodbc.
    rewrite (fetch_body_run _ _ _ _ Hr), Hs.
    destruct rows as [|row0 rows']; [contradiction|].
    rewrite send_to_syslog_raises. reflexivity. }
  rewrite E. simpl. repeat split.
Qed.

Lemma handler_type_error_aborts_run_witness :
  let e := Sample.env Sample.two_jobs Sample.reply_1_6 (ConnectEx 0) in
  let w := Sample.world (Some ("Customers:0" ++ nl ++ "Orders:5" ++ nl)) in
  read_state_of (state_file w) = Ok [("Customers", 0%Z); ("Orders", 5%Z)]
  /\ sql_server e Sample.customers = Rows (Sample.rows_of 1)
  /\ Sample.rows_of 1 <> []
  /\ fst (for_each [Sample.customers; Sample.orders] (process_job e) w)
     = Raise TypeError
  /\ syslog (snd (for_each [Sample.customers; Sample.orders] (process_job e) w)) = [].
Proof.
  intros e w.
  assert (Hr : read_state_of (state_file w) = Ok [("Customers", 0%Z); ("Orders", 5%Z)])
    by reflexivity.
  assert (Hd : Sample.rows_of 1 <> []) by discriminate.
  destruct (handler_type_error_aborts_run e Sample.customers [Sample.orders] w _ _
              Hr eq_refl Hd) as (A & _ & B & _).
  split; [exact Hr|]. split; [reflexivity|].
  split; [exact Hd|]. split; [exact A | exact B].
Defined.

(** ** Further properties of a whole run *)

Lemma send_to_syslog_keeps_file (env : Env) (data : list row)
    (config : table_config) (w : World) :
  state_file w <> None ->
  state_file (snd (send_to_syslog env data config w)) <> None.
Proof. intros Hf. rewrite send_to_syslog_raises. exact Hf. Qed.

Lemma process_job_keeps_file (env : Env) (config : table_config) (w : World) :
  state_file w <> None ->
  state_file (snd (process_job env config w)) <> None.
Proof.
  intros Hf. unfold process_job, bind.
  pose proof (fetch_data_from_db_frame env config w) as (F & _).
  destruct (fetch_data_from_db env config w) as [[data|e] w1]; simpl in F.
  - destruct data as [|r0 rs]; simpl.
    + rewrite F. exact Hf.
    + apply (send_to_syslog_keeps_file env (r0 :: rs) config w1). rewrite F. exact Hf.
  - simpl. rewrite F. exact Hf.
Qed.

Lemma for_each_jobs_keeps_file (env : Env) (jobs : list table_config) (w : World) :
  state_file w <> None ->
  state_file (snd (for_each jobs (process_job env) w)) <> None.
Proof.
  revert w. induction jobs as [|c rest IH]; intros w Hf; simpl; [exact Hf|].
  unfold bind. pose proof (process_job_keeps_file env c w Hf) as H.
  destruct (process_job env c w) as [[u|e] w1]; simpl in H; [apply IH, H | exact H].
Qed.

(** X23: A state file that exists when [main] starts exists when it ends,
    however the run ends: no path of the program removes it. *)
Theorem state_file_never_removed (env : Env) (w : World) :
  state_file w <> None -> state_file (snd (main env w)) <> None.
Proof.
  intros Hf. unfold main, bind, load_server_configs, ret.
  destruct (login_json env) as [configs|]; [|exact Hf].
  pose proof (load_table_configs_quiet env w) as (Q & _).
  destruct (load_table_configs env w) as [[jobs|e] w1]; simpl in Q;
    [|simpl; rewrite Q; exact Hf].
  destruct (state_file w1) as [text|] eqn:Ef; [|congruence].
  rewrite (create_state_file_present _ _ _ Ef).
  destruct (ping_syslog_server_run env w1) as [b [Hb (P & _)]].
  specialize (Hb w1).
  destruct (ping_syslog_server env w1) as [rb w2]. simpl in Hb, P. subst rb.
  assert (H2 : state_file w2 <> None) by (rewrite P, Ef; discriminate).
  destruct b; simpl; [apply for_each_jobs_keeps_file, H2 | exact H2].
Qed.

Lemma state_file_never_removed_witness :
  let e := Sample.env Sample.two_jobs Sample.reply_1_6 (ConnectEx 0) in
  let w := Sample.world (Some ("Orders:five" ++ nl)) in
  state_file w <> None
  /\ fst (main e w) = Raise ValueError
  /\ state_file (snd (main e w)) <> None.
Proof.
  intros e w.
  assert (H : state_file w <> None) by discriminate.
  split; [exact H|]. split; [reflexivity|].
  exact (state_file_never_removed e w H).
Defined.

(** What [main] comes to when the configuration loads, the state file
    exists and the endpoint answers: the loop over the jobs. *)
Lemma main_reachable_run (env : Env) (configs : list server_config)
    (text : string) (w : World) :
  login_json env = Some configs ->
  tables_txt env = Some text ->
  Forall (fun line => length (split colon (strip line)) = 3%nat) (file_lines text) ->
  syslog_probe env = ConnectEx 0 ->
  state_file w <> None ->
  exists w1,
    quiet w w1
    /\ main env w
       = for_each (flat_map (jobs_of_line (server_dict_of configs)) (file_lines text))
                  (process_job env) w1.
Proof.
  intros Hj Ht H3 Hp Hf.
  destruct (load_table_lines_run (server_dict_of configs) (file_lines text) [] w H3)
    as [w1 [E Q]].
  exists w1. split; [exact Q|].
  unfold main, bind, load_server_configs, load_table_configs, bind,
    load_server_configs, ret. rewrite Hj, Ht, E. simpl app.
  destruct Q as (Q1 & _).
  destruct (state_file w1) as [t|] eqn:Ef; [|congruence].
  rewrite (create_state_file_present _ _ _ Ef).
  unfold ping_syslog_server. rewrite Hp. reflexivity.
Qed.

Lemma reread_values (d state : dict Z) (v : Z) :
  Forall (fun item => snd item = v) d ->
  (forall k x, dict_get state k = Some x -> x = v) ->
  forall k x, dict_get (reread d state) k = Some x -> x = v.
Proof.
  revert state. induction d as [|[k1 v1] d IH]; intros state Hd Hs k x; simpl.
  - apply Hs.
  - inversion Hd as [|? ? Hv Hd']; subst. simpl in *.
    apply (IH _ Hd'). intros k' x'.
    destruct (string_dec k' (lstrip_with isspace k1)) as [-> | Hne].
    + rewrite dict_get_set_same. intros E. inversion E. reflexivity.
    + rewrite dict_get_set_other by exact Hne. apply Hs.
Qed.

(** X25: The first run: the state file that [create_state_file] writes for the
    jobs [load_table_configs] loaded always reads without error, and every
    table, listed or not, has offset 0. *)
Theorem first_run_offsets_are_zero (env : Env) (configs : list server_config)
    (text : string) (w : World) (t : string) :
  login_json env = Some configs ->
  tables_txt env = Some text ->
  Forall (fun line => length (split colon (strip line)) = 3%nat) (file_lines text) ->
  state_file w = None ->
  exists jobs w1,
    load_table_configs env w = (Ok jobs, w1)
    /\ stored_offset (snd (create_state_file jobs w1)) t = Ok 0%Z.
Proof.
  intros Hj Ht H3 Hf.
  destruct (load_table_lines_run (server_dict_of configs) (file_lines text) [] w H3)
    as [w1 [E (Q1 & _)]].
  exists (flat_map (jobs_of_line (server_dict_of configs)) (file_lines text)), w1.
  split.
  - unfold load_table_configs, bind, load_server_configs, ret. rewrite Hj, Ht.
    exact E.
  - rewrite create_state_file_absent by congruence. simpl snd.
    unfold stored_offset. simpl state_file. rewrite initial_state_text_eq.
    set (jobs := flat_map (jobs_of_line (server_dict_of configs)) (file_lines text)).
    set (d := map (fun c => (table c, 0%Z)) jobs).
    assert (Hk : Forall (fun k => field_ok k = true) (keys d)).
    { unfold keys, d. rewrite map_map. simpl. apply Forall_map.
      unfold jobs. apply Forall_flat_map.
      eapply Forall_impl; [|apply file_lines_strip_no_newline].
      intros line Hn. apply jobs_of_line_field, Hn. }
    unfold read_state_of.
    rewrite (file_lines_state_text _ Hk), (read_state_lines_written _ _ Hk).
    f_equal. unfold dict_get_default.
    destruct (dict_get (reread d []) t) as [x|] eqn:G; [|reflexivity].
    apply (reread_values d [] 0%Z) in G; [exact G | | intros k x' H; discriminate].
    unfold d. apply Forall_map. apply Forall_forall. reflexivity.
Qed.

Lemma first_run_offsets_are_zero_witness :
  let e := Sample.env Sample.alias_jobs Sample.reply_3_2 (ConnectEx 0) in
  let w := Sample.world None in
  Forall (fun line => length (split colon (strip line)) = 3%nat)
         (file_lines Sample.alias_jobs)
  /\ state_file w = None
  /\ exists jobs w1,
       load_table_configs e w = (Ok jobs, w1)
       /\ stored_offset (snd (create_state_file jobs w1)) " Orders" = Ok 0%Z.
Proof.
  intros e w.
  assert (H3 : Forall (fun line => length (split colon (strip line)) = 3%nat)
                      (file_lines Sample.alias_jobs)) by (repeat constructor).
  split; [exact H3|]. split; [reflexivity|].
  exact (first_run_offsets_are_zero e _ Sample.alias_jobs w " Orders"
           eq_refl eq_refl H3 eq_refl).
Defined.


(** ** Forwarding and the state across a run *)

Lemma process_job_frame (env : Env) (config : table_config) (w : World) :
  let r := process_job env config w in
  state_file (snd r) = state_file w /\ syslog (snd r) = syslog w
  /\ logger_handlers (snd r) = logger_handlers w.
Proof.
  unfold process_job, bind.
  pose proof (fetch_data_from_db_frame env config w) as F.
  destruct (fetch_data_from_db env config w) as [[data|e] w1]; simpl in F.
  - destruct data as [|r0 rs].
    + simpl. exact F.
    + rewrite send_to_syslog_raises. simpl. exact F.
  - simpl. exact F.
Qed.

Lemma for_each_jobs_frame (env : Env) (jobs : list table_config) (w : World) :
  let r := for_each jobs (process_job env) w in
  state_file (snd r) = state_file w /\ syslog (snd r) = syslog w
  /\ logger_handlers (snd r) = logger_handlers w.
Proof.
  revert w. induction jobs as [|c rest IH]; intros w; simpl; [repeat split|].
  unfold bind. pose proof (process_job_frame env c w) as (A & B & C).
  destruct (process_job env c w) as [[u|e] w1]; simpl in A, B, C.
  - destruct (IH w1) as (A' & B' & C'). repeat split; congruence.
  - simpl. repeat split; assumption.
Qed.



(** What a run of [main] leaves of the world: nothing is sent, no handler
    is attached, a state file that exists is not touched, and one that
    is absent stays absent or is the one [create_state_file] writes. *)
Lemma main_frame (env : Env) (w : World) :
  let w' := snd (main env w) in
  syslog w' = syslog w
  /\ logger_handlers w' = logger_handlers w
  /\ (state_file w <> None -> state_file w' = state_file w)
  /\ (state_file w = None ->
      state_file w' = None
      \/ exists jobs w1,
           load_table_configs env w = (Ok jobs, w1)
           /\ state_file w' = Some (initial_state_text jobs)).
Proof.
  intros w'. subst w'.
  remember (main env w) as r eqn:Er.
  unfold main, bind, load_server_configs, ret in Er.
  destruct (login_json env) as [configs|] eqn:Hj.
  2:{ subst r. simpl. split; [reflexivity|]. split; [reflexivity|].
      split; [reflexivity|]. intros H. left. exact H. }
  pose proof (load_table_configs_quiet env w) as Q.
  destruct (load_table_configs env w) as [[jobs|e] w1] eqn:El; simpl in Q;
    destruct Q as (Q1 & Q2 & Q3 & Q4).
  2:{ subst r. simpl. split; [exact Q3|]. split; [exact Q2|].
      split; [intros _; exact Q1|]. intros H. left. congruence. }
  assert (T : forall w2 : World,
            let r2 := (reachable <- ping_syslog_server env ;;
                       if negb reachable
                       then print (Fore_RED ++
                              "Cannot contact the Syslog server. Ensure the Syslog server is on."
                              ++ Style_RESET_ALL)
                       else for_each jobs (process_job env)) w2 in
            state_file (snd r2) = state_file w2 /\ syslog (snd r2) = syslog w2
            /\ logger_handlers (snd r2) = logger_handlers w2).
  { intros w2. unfold bind.
    destruct (ping_syslog_server_run env w2) as [b [Hb (P1 & P2 & P3 & _)]].
    specialize (Hb w2).
    destruct (ping_syslog_server env w2) as [rb w3]. simpl in Hb, P1, P2, P3.
    subst rb. destruct b; simpl.
    - destruct (for_each_jobs_frame env jobs w3) as (A & B & C).
      repeat split; congruence.
    - repeat split; assumption. }
  destruct (state_file w1) as [text|] eqn:Ef.
  - rewrite (create_state_file_present _ _ _ Ef) in Er.
    unfold bind in T. destruct (T w1) as (A & B & C).
    subst r. split; [congruence|]. split; [congruence|].
    split; [intros _; congruence|]. intros H. congruence.
  - rewrite (create_state_file_absent _ _ Ef) in Er.
    unfold bind in T.
    match type of Er with
    | context [ping_syslog_server env ?w2] => destruct (T w2) as (A & B & C)
    end.
    subst r.
    split; [rewrite B; exact Q3|]. split; [rewrite C; exact Q2|].
    split; [intros H; congruence|].
    intros _. right. exists jobs, w1. split; [reflexivity | rewrite A; reflexivity].
Qed.

(** C1 (fails on the code): for a stored offset [o] and more than [o] rows
    the job is to send one summary record and one detail record per new
    row and its stored offset is to become the number of rows.  On the
    code the call raises [TypeError] where the handler is constructed
    ([ssl] is no parameter of [SysLogHandler]): no record is sent and the
    stored offset stays [o], which is not the number of rows. *)
Theorem new_rows_are_not_forwarded (env : Env) (data : list row)
    (config : table_config) (w : World) (o : Z) :
  stored_offset w (table config) = Ok o ->
  (Z.of_nat (length data) > o)%Z ->
  let r := send_to_syslog env data config w in
  fst r = Raise TypeError
  /\ syslog (snd r) = syslog w
  /\ stored_offset (snd r) (table config) = Ok o
  /\ o <> Z.of_nat (length data).
Proof.
  intros Ho HL r. unfold r. rewrite send_to_syslog_raises. simpl.
  split; [reflexivity|]. split; [reflexivity|]. split; [exact Ho | lia].
Qed.

Lemma new_rows_are_not_forwarded_witness :
  let e := Sample.env Sample.one_job (fun _ => Rows (Sample.rows_of 8)) (ConnectEx 0) in
  let w := Sample.world (Some ("Orders:5" ++ nl)) in
  stored_offset w (table Sample.orders) = Ok 5%Z
  /\ (Z.of_nat (length (Sample.rows_of 8)) > 5)%Z
  /\ fst (send_to_syslog e (Sample.rows_of 8) Sample.orders w) = Raise TypeError
  /\ syslog (snd (send_to_syslog e (Sample.rows_of 8) Sample.orders w)) = []
  /\ stored_offset (snd (send_to_syslog e (Sample.rows_of 8) Sample.orders w))
                   (table Sample.orders) = Ok 5%Z
  /\ fst (main e w) = Raise TypeError
  /\ syslog (snd (main e w)) = []
  /\ state_file (snd (main e w)) = Some ("Orders:5" ++ nl).
Proof.
  intros e w.
  assert (Ho : stored_offset w (table Sample.orders) = Ok 5%Z) by reflexivity.
  assert (HL : (Z.of_nat (length (Sample.rows_of 8)) > 5)%Z) by reflexivity.
  destruct (new_rows_are_not_forwarded e (Sample.rows_of 8) Sample.orders w 5%Z Ho HL)
    as (A & B & C & _).
  split; [exact Ho|]. split; [exact HL|]. split; [exact A|]. split; [exact B|].
  split; [exact C|]. repeat split.
Defined.




(** C8: forwarding the same rows for the same table a second time sends
    nothing and leaves the state file, and so every stored offset, as
    the first call left it.  (Each call ends with [TypeError] at the
    construction of the handler.)  The same holds of a second run of
    [main] after a first one. *)
Theorem second_run_sends_nothing (env : Env) (data : list row)
    (config : table_config) (w : World) :
  let w1 := snd (send_to_syslog env data config w) in
  let r2 := send_to_syslog env data config w1 in
  let m1 := snd (main env w) in
  syslog (snd r2) = syslog w1
  /\ state_file (snd r2) = state_file w1
  /\ (forall t, stored_offset (snd r2) t = stored_offset w1 t)
  /\ syslog (snd (main env m1)) = syslog m1
  /\ (state_file m1 <> None -> state_file (snd (main env m1)) = state_file m1).
Proof.
  intros w1 r2 m1. unfold r2. rewrite send_to_syslog_raises. simpl.
  destruct (main_frame env m1) as (A & _ & B & _).
  repeat split; assumption.
Qed.

(** C10 (fails on the code): a table without an entry in the state is to
    be forwarded from offset 0 and to get an entry equal to the number of
    rows.  On the code the call raises [TypeError] at the construction of
    the handler, before [state.get] is reached: nothing is sent and the
    state read afterwards is the one read before, without an entry for
    the table. *)
Theorem missing_entry_is_not_created (env : Env) (data : list row)
    (config : table_config) (w : World) (state : dict Z) :
  read_state_of (state_file w) = Ok state ->
  dict_get state (table config) = None ->
  data <> [] ->
  let r := send_to_syslog env data config w in
  fst r = Raise TypeError
  /\ syslog (snd r) = syslog w
  /\ read_state_of (state_file (snd r)) = Ok state
  /\ dict_get state (table config) <> Some (Z.of_nat (length data)).
Proof.
  intros Hr Hn Hd r. unfold r. rewrite send_to_syslog_raises. simpl.
  split; [reflexivity|]. split; [reflexivity|]. split; [exact Hr|].
  rewrite Hn. discriminate.
Qed.

Lemma missing_entry_is_not_created_witness :
  let e := Sample.env Sample.two_jobs Sample.reply_1_6 (ConnectEx 0) in
  let w := Sample.world (Some ("Customers:4" ++ nl)) in
  let r := send_to_syslog e (Sample.rows_of 2) Sample.orders w in
  read_state_of (state_file w) = Ok [("Customers", 4%Z)]
  /\ dict_get [("Customers", 4%Z)] (table Sample.orders) = None
  /\ Sample.rows_of 2 <> []
  /\ fst r = Raise TypeError
  /\ syslog (snd r) = []
  /\ state_file (snd r) = Some ("Customers:4" ++ nl).
Proof.
  intros e w r.
  assert (Hr : read_state_of (state_file w) = Ok [("Customers", 4%Z)]) by reflexivity.
  assert (Hd : Sample.rows_of 2 <> []) by discriminate.
  destruct (missing_entry_is_not_created e (Sample.rows_of 2) Sample.orders w _
              Hr eq_refl Hd) as (A & B & _).
  split; [exact Hr|]. split; [reflexivity|]. split; [exact Hd|].
  split; [exact A|]. split; [exact B | reflexivity].
Defined.

Lemma process_job_outcome (env : Env) (config : table_config) (w : World)
    (state : dict Z) :
  read_state_of (state_file w) = Ok state ->
  fst (process_job env config w)
  = match sql_server env config with
    | Rows (_ :: _) => Raise TypeError
    | _ => Ok tt
    end.
Proof.
  intros Hr. unfold process_job, bind, fetch_data_from_db, except_pyodbc.
  rewrite (fetch_body_run _ _ _ _ Hr).
  destruct (sql_server env config) as [m|m|m|m|rows]; try reflexivity.
  destruct rows as [|r0 rs]; [reflexivity|].
  rewrite send_to_syslog_raises. reflexivity.
Qed.

Lemma for_each_jobs_outcome (env : Env) (jobs : list table_config) (w : World)
    (state : dict Z) :
  read_state_of (state_file w) = Ok state ->
  let r := for_each jobs (process_job env) w in
  (fst r = Ok tt
   <-> forall c rows, In c jobs -> sql_server env c = Rows rows -> rows = [])
  /\ (fst r = Ok tt \/ fst r = Raise TypeError).
Proof.
  revert w. induction jobs as [|c rest IH]; intros w Hr; simpl.
  - split; [|left; reflexivity]. split; [intros _ c rows [] | reflexivity].
  - unfold bind. pose proof (process_job_outcome env c w state Hr) as O.
    pose proof (process_job_frame env c w) as (F & _).
    destruct (process_job env c w) as [[u|e] w1]; simpl in O, F.
    + assert (Hr1 : read_state_of (state_file w1) = Ok state)
        by (rewrite F; exact Hr).
      destruct (IH w1 Hr1) as [I1 I2]. split; [|exact I2].
      rewrite I1. split.
      * intros H c' rows [<- | I] E; [|apply (H c' rows I E)].
        rewrite E in O. destruct rows; [reflexivity | discriminate].
      * intros H c' rows I. apply H. right. exact I.
    + simpl. destruct (sql_server env c) as [m|m|m|m|rows] eqn:Hs;
        try discriminate.
      destruct rows as [|r0 rs]; [discriminate|]. inversion O; subst.
      split; [|right; reflexivity]. split; [discriminate|].
      intros H. specialize (H c (r0 :: rs) (or_introl eq_refl) Hs). discriminate.
Qed.

(** X24: with the configuration loaded, the state file in place and
    readable and the endpoint reachable, a run of [main] ends without
    error exactly when no job's table returns a row; otherwise it ends
    with the [TypeError] of the first table that has rows.  Either way
    nothing is sent and the state file is left as it was. *)
Theorem run_ends_without_error_iff_no_rows (env : Env)
    (configs : list server_config) (text : string) (w : World) (state : dict Z) :
  login_json env = Some configs ->
  tables_txt env = Some text ->
  Forall (fun line => length (split colon (strip line)) = 3%nat) (file_lines text) ->
  syslog_probe env = ConnectEx 0 ->
  state_file w <> None ->
  read_state_of (state_file w) = Ok state ->
  (fst (main env w) = Ok tt
   <-> forall c rows,
         In c (flat_map (jobs_of_line (server_dict_of configs)) (file_lines text)) ->
         sql_server env c = Rows rows -> rows = [])
  /\ (fst (main env w) = Ok tt \/ fst (main env w) = Raise TypeError)
  /\ syslog (snd (main env w)) = syslog w
  /\ state_file (snd (main env w)) = state_file w.
Proof.
  intros Hj Ht H3 Hp Hf Hr.
  destruct (main_frame env w) as (A & _ & B & _).
  destruct (main_reachable_run env configs text w Hj Ht H3 Hp Hf)
    as [w1 [(Q1 & _) E]].
  assert (Hr1 : read_state_of (state_file w1) = Ok state) by (rewrite Q1; exact Hr).
  destruct (for_each_jobs_outcome env
              (flat_map (jobs_of_line (server_dict_of configs)) (file_lines text))
              w1 state Hr1) as [I1 I2].
  rewrite <- E in I1, I2.
  split; [exact I1|]. split; [exact I2|]. split; [exact A | exact (B Hf)].
Qed.

Lemma run_ends_without_error_iff_no_rows_witness :
  let e := Sample.env Sample.two_jobs
             (fun c => if String.eqb (table c) "Customers"
                       then ConnectError "Login failed" else Rows [])
             (ConnectEx 0) in
  let text := "Orders:6" ++ nl ++ nl ++ "Customers: 1" ++ nl in
  let w := Sample.world (Some text) in
  Forall (fun line => length (split colon (strip line)) = 3%nat)
         (file_lines Sample.two_jobs)
  /\ state_file w <> None
  /\ read_state_of (state_file w) = Ok [("Orders", 6%Z); ("Customers", 1%Z)]
  /\ fst (main e w) = Ok tt
  /\ syslog (snd (main e w)) = []
  /\ state_file (snd (main e w)) = Some text.
Proof.
  intros e text w.
  assert (H3 : Forall (fun line => length (split colon (strip line)) = 3%nat)
                      (file_lines Sample.two_jobs)) by (repeat constructor).
  assert (Hf : state_file w <> None) by discriminate.
  assert (Hr : read_state_of (state_file w) = Ok [("Orders", 6%Z); ("Customers", 1%Z)])
    by reflexivity.
  destruct (run_ends_without_error_iff_no_rows e _ Sample.two_jobs w _
              eq_refl eq_refl H3 eq_refl Hf Hr) as (A & _ & B & C).
  split; [exact H3|]. split; [exact Hf|]. split; [exact Hr|].
  split; [|split; [exact B | exact C]].
  apply A. intros c rows [<- | [<- | []]] E; inversion E; reflexivity.
Defined.
